(** * sse-starlette: the Server-Sent Events encoder

    A shallow embedding of [sse_starlette/event_function.py] and
    [sse_starlette/event_class.py], and the properties of the wire format
    they produce.

    Python values are dynamically typed, so the fields of an event are
    values of [PyVal] and every library call that inspects the type of its
    argument ([re] on a subject, [+] on two strings, [write] on a buffer)
    is modelled with the [TypeError] it raises on the wrong type.  The
    in-memory buffers [io.StringIO] and [io.BytesIO] are threaded through
    the encoders as the state of a small state-and-exception monad, and the
    dictionary that [ensure_bytes] assigns to lives in a store of mutable
    objects.

    The file has three parts: the model of the two modules, the wire format
    in the words of the specification together with the other definitions
    the statements use, and the properties. *)

From Stdlib Require Import ZArith NArith List String Ascii Strings.Byte Lia DecimalString.
From stdpp Require Import base option list gmap strings.

Local Open Scope N_scope.

(** ** Text and bytes *)

(** A Python [str] is a sequence of Unicode code points, a [bytes] object a
    sequence of octets. *)
Abbreviation str := (list N).
Abbreviation bytes := (list byte).

(** ASCII literals of the source, as [str] and as [bytes]. *)
Definition txt (s : string) : str := map N_of_ascii (list_ascii_of_string s).
Definition raw (s : string) : bytes := list_byte_of_string s.
Arguments txt : simpl never.
Arguments raw : simpl never.

Definition CR : N := 13.
Definition LF : N := 10.
Definition bCR : byte := x0d.
Definition bLF : byte := x0a.

Definition byte_of_N (n : N) : byte :=
  match Byte.of_N (n mod 256) with Some b => b | None => x00 end.

(** ** Values, exceptions, results *)

(** The values that reach the encoder.  A float is identified by its
    [repr] (Python guarantees [float(repr(x)) == x]); no arithmetic on
    floats is modelled. *)
Inductive PyVal : Type :=
| PyNone
| PyBool (b : bool)
| PyInt (n : Z)
| PyFloat (repr : string)
| PyStr (s : str)
| PyBytes (b : bytes).

(** The places a [TypeError] comes from. *)
Inductive type_error : Type :=
| RetryNotInt        (* raise TypeError("retry argument must be int") *)
| SubjectMismatch    (* re: the subject is not a string of the pattern's kind *)
| JoinMismatch       (* re.sub: a replacement of the other string kind is joined in *)
| ConcatMismatch     (* str + a value that is not a str *)
| WriteMismatch      (* StringIO.write of a non-str, BytesIO.write of a non-bytes *)
| BadArity           (* a call with more positional arguments than parameters *)
| UnexpectedKeyword.  (* a keyword argument that is no parameter *)

Inductive exn : Type :=
| TypeError (why : type_error)
| UnicodeEncodeError
| RecursionError.

Inductive result (A : Type) : Type :=
| Return (a : A)
| Raise (e : exn).
Arguments Return {A} a.
Arguments Raise {A} e.

#[global] Instance result_ret : MRet result := @Return.
#[global] Instance result_bind : MBind result := fun A B f r =>
  match r with Return a => f a | Raise e => Raise e end.

(** [r] is a raised [TypeError]. *)
Definition is_TypeError {A} (r : result A) : Prop :=
  exists why, r = Raise (TypeError why).

(** ** The buffer monad *)

(** A computation over a buffer with contents of type [B]: it returns a
    value and the new contents, or raises. *)
Definition io (B A : Type) : Type := B -> result (A * B).

#[global] Instance io_ret {B} : MRet (io B) := fun A a buf => Return (a, buf).
#[global] Instance io_bind {B} : MBind (io B) := fun A C f m buf =>
  match m buf with
  | Return (a, buf') => f a buf'
  | Raise e => Raise e
  end.

Definition raise {B A} (e : exn) : io B A := fun _ => Raise e.

Definition lift {B A} (r : result A) : io B A := fun buf =>
  match r with Return a => Return (a, buf) | Raise e => Raise e end.

(** [buffer.getvalue()] *)
Definition getvalue {B} : io B B := fun buf => Return (buf, buf).

(** [if c: body] *)
Definition when {B} (c : bool) (body : io B unit) : io B unit :=
  if c then body else mret tt.

(** [for x in xs: body] *)
Fixpoint for_each {B A} (xs : list A) (body : A -> io B unit) : io B unit :=
  match xs with
  | [] => mret tt
  | x :: xs' => body x ;; for_each xs' body
  end.

(** Run a computation on a fresh buffer and keep its value. *)
Definition run {C A} (m : io (list C) A) : result A :=
  match m [] with Return (a, _) => Return a | Raise e => Raise e end.

(** [StringIO.write] takes a [str] only, [BytesIO.write] a [bytes] only. *)
Definition StringIO_write (v : PyVal) : io str unit := fun buf =>
  match v with
  | PyStr s => Return (tt, buf ++ s)
  | _ => Raise (TypeError WriteMismatch)
  end.

Definition BytesIO_write (v : PyVal) : io bytes unit := fun buf =>
  match v with
  | PyBytes b => Return (tt, buf ++ b)
  | _ => Raise (TypeError WriteMismatch)
  end.

(** ** The line-separator expression [\r\n|\r|\n] *)

(** The compiled expression scans its subject from left to right; at a
    carriage return it prefers the two-character alternative.  The same
    scan serves the [str] pattern and the [bytes] pattern, so it is written
    once over the character type. *)
Section LineSep.
Context {A : Type} (is_cr is_lf : A -> bool).

(** [_LINE_SEP_EXPR.split(s)]: the pieces between the matches, empty
    pieces included. *)
Fixpoint split_lines (s : list A) : list (list A) :=
  match s with
  | [] => [[]]
  | c :: s' =>
      if is_cr c then
        [] :: match s' with
              | c' :: s'' => if is_lf c' then split_lines s'' else split_lines s'
              | [] => split_lines s'
              end
      else if is_lf c then [] :: split_lines s'
      else match split_lines s' with
           | l :: ls => (c :: l) :: ls
           | [] => [[c]]
           end
  end.

(** [_LINE_SEP_EXPR.sub(repl, s)] for a literal replacement [repl] of the
    subject's own kind. *)
Fixpoint sub_lines (repl : list A) (s : list A) : list A :=
  match s with
  | [] => []
  | c :: s' =>
      if is_cr c then
        repl ++ match s' with
                | c' :: s'' => if is_lf c' then sub_lines repl s'' else sub_lines repl s'
                | [] => sub_lines repl s'
                end
      else if is_lf c then repl ++ sub_lines repl s'
      else c :: sub_lines repl s'
  end.

(** Whether the expression matches anywhere in [s]. *)
Definition has_line_sep (s : list A) : bool :=
  existsb (fun c => is_cr c || is_lf c) s.
End LineSep.

Definition is_CR (c : N) : bool := c =? CR.
Definition is_LF (c : N) : bool := c =? LF.
Definition str_split : str -> list str := split_lines is_CR is_LF.
Definition str_sub : str -> str -> str := sub_lines is_CR is_LF.
Definition str_has_sep : str -> bool := has_line_sep is_CR is_LF.

Definition is_bCR (b : byte) : bool := Byte.eqb b bCR.
Definition is_bLF (b : byte) : bool := Byte.eqb b bLF.
Definition bytes_split : bytes -> list bytes := split_lines is_bCR is_bLF.
Definition bytes_sub : bytes -> bytes -> bytes := sub_lines is_bCR is_bLF.
Definition bytes_has_sep : bytes -> bool := has_line_sep is_bCR is_bLF.

(** The two compiled patterns of the source: [re.compile(r"...")] and
    [re.compile(rb"...")]. *)
Inductive pattern : Type := StrPattern | BytesPattern.

(** [pattern.split(v)] on a value: a pattern only accepts a subject of its
    own string kind. *)
Definition re_split (p : pattern) (v : PyVal) : result (list PyVal) :=
  match p, v with
  | StrPattern, PyStr s => Return (map PyStr (str_split s))
  | BytesPattern, PyBytes b => Return (map PyBytes (bytes_split b))
  | _, _ => Raise (TypeError SubjectMismatch)
  end.

(** [pattern.sub(repl, v)] for a replacement without backslashes.  The
    pieces of the subject and one copy of [repl] per match are collected in a
    list and joined as the subject's kind: a replacement of the other kind
    goes unnoticed while nothing matches and makes the join raise as soon as
    something does. *)
Definition re_sub (p : pattern) (repl v : PyVal) : result PyVal :=
  match p, v with
  | StrPattern, PyStr s =>
      match repl with
      | PyStr r => Return (PyStr (str_sub r s))
      | PyBytes _ => if str_has_sep s then Raise (TypeError JoinMismatch)
                     else Return (PyStr s)
      | _ => Raise (TypeError SubjectMismatch)
      end
  | BytesPattern, PyBytes b =>
      match repl with
      | PyBytes r => Return (PyBytes (bytes_sub r b))
      | PyStr _ => if bytes_has_sep b then Raise (TypeError JoinMismatch)
                   else Return (PyBytes b)
      | _ => Raise (TypeError SubjectMismatch)
      end
  | _, _ => Raise (TypeError SubjectMismatch)
  end.

(** ** [str()], [isinstance], [+], [.encode("utf-8")] *)

Definition hex_digit (n : N) : N :=
  if n <? 10 then 48 + n else 87 + n.

(** One octet of [repr(b)], inside the quote [q]. *)
Definition repr_octet (q : N) (x : byte) : str :=
  let c := Byte.to_N x in
  if (c =? q) || (c =? 92) then [92; c]
  else if c =? 9 then [92; 116]
  else if c =? 10 then [92; 110]
  else if c =? 13 then [92; 114]
  else if (c <? 32) || (127 <=? c) then [92; 120; hex_digit (c / 16); hex_digit (c mod 16)]
  else [c].

(** [repr(b)] of a bytes object: double quotes only when it holds a single
    quote and no double quote. *)
Definition bytes_repr (b : bytes) : str :=
  let has q := existsb (fun x => Byte.to_N x =? q) b in
  let q := if has 39 && negb (has 34) then 34 else 39 in
  [98; q] ++ flat_map (repr_octet q) b ++ [q].

(** [str(v)], which is also what an f-string field [{v}] renders. *)
Definition py_str (v : PyVal) : str :=
  match v with
  | PyNone => txt "None"
  | PyBool true => txt "True"
  | PyBool false => txt "False"
  | PyInt n => txt (NilZero.string_of_int (Z.to_int n))
  | PyFloat r => txt r
  | PyStr s => s
  | PyBytes b => bytes_repr b
  end.

(** [v is not None] *)
Definition is_not_None (v : PyVal) : bool :=
  match v with PyNone => false | _ => true end.

(** [isinstance(v, int)]: [bool] is a subclass of [int]. *)
Definition isinstance_int (v : PyVal) : bool :=
  match v with PyInt _ | PyBool _ => true | _ => false end.

(** [s + v] for a [str] on the left. *)
Definition str_add (s : str) (v : PyVal) : result str :=
  match v with
  | PyStr t => Return (s ++ t)
  | _ => Raise (TypeError ConcatMismatch)
  end.

(** The UTF-8 octets of one code point. *)
Definition utf8_cp (c : N) : bytes :=
  if c <? 0x80 then [byte_of_N c]
  else if c <? 0x800 then
    [byte_of_N (0xC0 + c / 64); byte_of_N (0x80 + c mod 64)]
  else if c <? 0x10000 then
    [byte_of_N (0xE0 + c / 4096); byte_of_N (0x80 + (c / 64) mod 64);
     byte_of_N (0x80 + c mod 64)]
  else
    [byte_of_N (0xF0 + c / 262144); byte_of_N (0x80 + (c / 4096) mod 64);
     byte_of_N (0x80 + (c / 64) mod 64); byte_of_N (0x80 + c mod 64)].

(** Surrogates cannot be encoded. *)
Definition encodable (c : N) : bool :=
  ((c <? 0xD800) || (0xDFFF <? c)) && (c <? 0x110000).

Definition utf8 (s : str) : bytes := flat_map utf8_cp s.

(** [s.encode("utf-8")] *)
Definition str_encode (s : str) : result bytes :=
  if forallb encodable s then Return (utf8 s) else Raise UnicodeEncodeError.

(** ** Dictionaries and the store *)

(** A field mapping is a dictionary from field names to values.  A
    dictionary is a mutable object: the store maps each reference to the
    current contents of the dictionary it denotes (a reference the store
    does not list denotes an empty dictionary). *)
Abbreviation dict := (gmap string PyVal).
Abbreviation store := (gmap positive (gmap string PyVal)).

(** [d.get(k)], with [None] for a missing key. *)
Definition field (d : gmap string PyVal) (k : string) : PyVal :=
  default PyNone (d !! k).

(** The keyword parameters of the event constructors. *)
Definition init_params : list string :=
  ["data"; "event"; "id"; "retry"; "comment"; "sep"]%string.

(** ** event_function.py *)

Module event_function.

(** An instance of [class ServerSentEvent]: its six attributes. *)
Record ServerSentEvent : Type := {
  data : PyVal;
  event : PyVal;
  id : PyVal;
  retry : PyVal;
  comment : PyVal;
  _sep : PyVal }.

Definition _LINE_SEP_EXPR : pattern := StrPattern.
Definition DEFAULT_SEPARATOR : PyVal := PyStr [CR; LF].

(** [ServerSentEvent(data, event=.., id=.., retry=.., comment=.., sep=..)];
    an argument left out is [None]. *)
Definition __init__ (data event id retry comment sep : PyVal) : ServerSentEvent :=
  {| data := data; event := event; id := id; retry := retry; comment := comment;
     _sep := if is_not_None sep then sep else DEFAULT_SEPARATOR |}.

(** The constructor called on an unpacked dictionary, [d] given as keyword
    arguments: a key that is no parameter is refused. *)
Definition from_kwargs (d : gmap string PyVal) : result ServerSentEvent :=
  if forallb (fun k => bool_decide (k ∈ init_params)) (map fst (map_to_list d))
  then Return (__init__ (field d "data") (field d "event") (field d "id")
                        (field d "retry") (field d "comment") (field d "sep"))
  else Raise (TypeError UnexpectedKeyword).

(** [ServerSentEvent.encode] *)
Definition encode (self : ServerSentEvent) : result bytes :=
  run (
    when (is_not_None (comment self)) (
      chunks ← lift (re_split _LINE_SEP_EXPR (PyStr (py_str (comment self))));
      for_each chunks (fun chunk =>
        StringIO_write (PyStr (txt ": " ++ py_str chunk ++ py_str (_sep self)))));;
    when (is_not_None (id self)) (
      cleaned ← lift (re_sub _LINE_SEP_EXPR (PyStr []) (id self));
      line ← lift (str_add (txt "id: ") cleaned);
      line ← lift (str_add line (_sep self));
      StringIO_write (PyStr line));;
    when (is_not_None (event self)) (
      cleaned ← lift (re_sub _LINE_SEP_EXPR (PyStr []) (event self));
      line ← lift (str_add (txt "event: ") cleaned);
      line ← lift (str_add line (_sep self));
      StringIO_write (PyStr line));;
    when (is_not_None (data self)) (
      chunks ← lift (re_split _LINE_SEP_EXPR (PyStr (py_str (data self))));
      for_each chunks (fun chunk =>
        StringIO_write (PyStr (txt "data: " ++ py_str chunk ++ py_str (_sep self)))));;
    when (is_not_None (retry self)) (
      (if negb (isinstance_int (retry self))
       then raise (TypeError RetryNotInt) else mret tt);;
      StringIO_write (PyStr (txt "retry: " ++ py_str (retry self) ++ py_str (_sep self))));;
    StringIO_write (_sep self);;
    value ← getvalue;
    lift (str_encode value)).

Definition _LINE_SEP_EXPR_BYTES : pattern := BytesPattern.
Definition DEFAULT_SEPARATOR_BYTES : PyVal := PyBytes [bCR; bLF].

(** [event_from_bytes(self, data, event=.., id=.., retry=.., comment=..,
    sep=..)]; its first parameter [self] is not used. *)
Definition event_from_bytes (self data event id retry comment sep : PyVal)
  : result bytes :=
  run (
    let write := BytesIO_write in
    let _sep := if is_not_None sep then sep else DEFAULT_SEPARATOR_BYTES in
    when (is_not_None comment) (
      chunks ← lift (re_split _LINE_SEP_EXPR_BYTES comment);
      for_each chunks (fun chunk =>
        write (PyBytes (raw ": "));; write chunk;; write _sep));;
    when (is_not_None id) (
      write (PyBytes (raw "id: "));;
      cleaned ← lift (re_sub _LINE_SEP_EXPR_BYTES (PyBytes []) id);
      write cleaned;;
      write _sep);;
    when (is_not_None event) (
      write (PyBytes (raw "event: "));;
      cleaned ← lift (re_sub _LINE_SEP_EXPR_BYTES (PyBytes []) event);
      write cleaned;;
      write _sep);;
    when (is_not_None data) (
      chunks ← lift (re_split _LINE_SEP_EXPR_BYTES data);
      for_each chunks (fun chunk =>
        write (PyBytes (raw "data: "));; write chunk;; write _sep));;
    when (is_not_None retry) (
      (if negb (isinstance_int retry)
       then raise (TypeError RetryNotInt) else mret tt);;
      write (PyBytes (raw "retry: "));;
      digits ← lift (str_encode (py_str retry));
      write (PyBytes digits);;
      write _sep);;
    write _sep;;
    getvalue).

(** What [ensure_bytes] is handed: a plain value, an event instance, or a
    reference to a dictionary. *)
Inductive arg : Type :=
| Val (v : PyVal)
| Inst (e : ServerSentEvent)
| Dict (l : positive).

(** [ensure_bytes(data, sep)]: its result and the store it leaves. *)
Definition ensure_bytes (h : store) (data : arg) (sep : PyVal)
  : result bytes * store :=
  match data with
  | Val (PyBytes b) => (Return b, h)
  | Inst e => (encode e, h)
  | Dict l =>
      let d := <["sep" := sep]> (h !!! l) in
      (e ← from_kwargs d; encode e, <[l := d]> h)
  | Val v =>
      (encode (__init__ (PyStr (py_str v)) PyNone PyNone PyNone PyNone sep), h)
  end.

End event_function.

(** ** event_class.py *)

Module event_class.

(** The two concrete subclasses of [ServerSentEventABC]. *)
Inductive cls : Type := ServerSentEvent | ServerSentEventBytes.

(** An instance of a subclass of [ServerSentEventABC]: its class and its
    six attributes. *)
Record ServerSentEventABC : Type := {
  __class__ : cls;
  data : PyVal;
  event : PyVal;
  id : PyVal;
  retry : PyVal;
  comment : PyVal;
  _sep : PyVal }.

(** The class attributes, looked up through the class of the instance. *)
Definition _LINE_SEP_EXPR (c : cls) : pattern :=
  match c with ServerSentEvent => StrPattern | ServerSentEventBytes => BytesPattern end.

Definition DEFAULT_SEPARATOR (c : cls) : PyVal :=
  match c with
  | ServerSentEvent => PyStr [CR; LF]
  | ServerSentEventBytes => PyBytes [bLF]
  end.

Definition tag (c : cls) (t : string) : PyVal :=
  match c with ServerSentEvent => PyStr (txt t) | ServerSentEventBytes => PyBytes (raw t) end.

Definition TAG_COMMENT (c : cls) : PyVal := tag c ": ".
Definition TAG_ID (c : cls) : PyVal := tag c "id: ".
Definition TAG_EVENT (c : cls) : PyVal := tag c "event: ".
Definition TAG_DATA (c : cls) : PyVal := tag c "data: ".
Definition TAG_RETRY (c : cls) : PyVal := tag c "retry: ".

(** [ServerSentEventABC._encode(self, write)] *)
Definition _encode {B} (self : ServerSentEventABC) (write : PyVal -> io B unit)
  : io B unit :=
  let c := __class__ self in
  when (is_not_None (comment self)) (
    chunks ← lift (re_split (_LINE_SEP_EXPR c) (comment self));
    for_each chunks (fun chunk =>
      write (TAG_COMMENT c);; write chunk;; write (_sep self)));;
  when (is_not_None (id self)) (
    write (TAG_ID c);;
    cleaned ← lift (re_sub (_LINE_SEP_EXPR c) (PyBytes []) (id self));
    write cleaned;;
    write (_sep self));;
  when (is_not_None (event self)) (
    write (TAG_EVENT c);;
    cleaned ← lift (re_sub (_LINE_SEP_EXPR c) (PyBytes []) (event self));
    write cleaned;;
    write (_sep self));;
  when (is_not_None (data self)) (
    chunks ← lift (re_split (_LINE_SEP_EXPR c) (data self));
    for_each chunks (fun chunk =>
      write (TAG_DATA c);; write chunk;; write (_sep self)));;
  when (is_not_None (retry self)) (
    (if negb (isinstance_int (retry self))
     then raise (TypeError RetryNotInt) else mret tt);;
    write (TAG_RETRY c);;
    digits ← lift (str_encode (py_str (retry self)));
    write (PyBytes digits);;
    write (_sep self));;
  write (_sep self).

(** [ServerSentEvent.__init__]: [data] is stringified, whatever it is. *)
Definition ServerSentEvent__init__ (data event id retry comment sep : PyVal)
  : ServerSentEventABC :=
  {| __class__ := ServerSentEvent;
     data := PyStr (py_str data); event := event; id := id; retry := retry;
     comment := comment;
     _sep := if is_not_None sep then sep else DEFAULT_SEPARATOR ServerSentEvent |}.

(** [ServerSentEvent.encode] *)
Definition ServerSentEvent_encode (self : ServerSentEventABC) : result bytes :=
  run (
    let write := StringIO_write in
    _encode self write;;
    value ← getvalue;
    lift (str_encode value)).

(** [ServerSentEventBytes.__init__] *)
Definition ServerSentEventBytes__init__ (data event id retry comment sep : PyVal)
  : ServerSentEventABC :=
  {| __class__ := ServerSentEventBytes;
     data := data; event := event; id := id; retry := retry; comment := comment;
     _sep := if is_not_None sep then sep else DEFAULT_SEPARATOR ServerSentEventBytes |}.

(** The bound method [buffer.write], as an argument of a call. *)
Inductive bound_method : Type := buffer_write.

(** [ServerSentEventBytes.encode], called with the positional arguments
    [args] after [self].  The method has no parameter but [self], so a call
    with an argument is refused before the body runs; [depth] is the room
    left on the call stack. *)
Fixpoint ServerSentEventBytes_encode (depth : nat) (self : ServerSentEventABC)
    (args : list bound_method) : result bytes :=
  match args with
  | _ :: _ => Raise (TypeError BadArity)
  | [] =>
      match depth with
      | O => Raise RecursionError
      | S depth' =>
          run (
            _ ← lift (ServerSentEventBytes_encode depth' self [buffer_write]);
            getvalue)
      end
  end.

(** The constructor called on an unpacked dictionary. *)
Definition from_kwargs (d : gmap string PyVal) : result ServerSentEventABC :=
  if forallb (fun k => bool_decide (k ∈ init_params)) (map fst (map_to_list d))
  then Return (ServerSentEvent__init__
                 (field d "data") (field d "event") (field d "id")
                 (field d "retry") (field d "comment") (field d "sep"))
  else Raise (TypeError UnexpectedKeyword).

(** [data.encode()]: the method of the instance's class. *)
Definition encode (depth : nat) (self : ServerSentEventABC) : result bytes :=
  match __class__ self with
  | ServerSentEvent => ServerSentEvent_encode self
  | ServerSentEventBytes => ServerSentEventBytes_encode depth self []
  end.

Inductive arg : Type :=
| Val (v : PyVal)
| Inst (e : ServerSentEventABC)
| Dict (l : positive).

(** [ensure_bytes(data, sep)]: its result and the store it leaves. *)
Definition ensure_bytes (depth : nat) (h : store) (data : arg) (sep : PyVal)
  : result bytes * store :=
  match data with
  | Val (PyBytes b) => (Return b, h)
  | Inst e => (encode depth e, h)
  | Dict l =>
      let d := <["sep" := sep]> (h !!! l) in
      (e ← from_kwargs d; ServerSentEvent_encode e, <[l := d]> h)
  | Val v =>
      (ServerSentEvent_encode
         (ServerSentEvent__init__ v PyNone PyNone PyNone PyNone sep), h)
  end.

End event_class.

(** * The wire format, as the specification words it *)

(** ** Frames *)

(** A line is a tag and a value; on the wire it is followed by the
    separator. *)
Definition line_out {C} (sep : list C) (l : list C * list C) : list C :=
  fst l ++ snd l ++ sep.

(** A frame is its lines, and one more separator after them. *)
Definition frame {C} (sep : list C) (lines : list (list C * list C)) : list C :=
  flat_map (line_out sep) lines ++ sep.

(** A value with its newlines deleted: no carriage return and no line feed
    is left. *)
Definition str_strip (s : str) : str :=
  List.filter (fun c => negb (is_CR c || is_LF c)) s.
Definition bytes_strip (b : bytes) : bytes :=
  List.filter (fun c => negb (is_bCR c || is_bLF c)) b.

(** The contents of a string value, and nothing for any other value. *)
Definition str_of (v : PyVal) : str := match v with PyStr s => s | _ => [] end.
Definition bytes_of (v : PyVal) : bytes := match v with PyBytes b => b | _ => [] end.

(** The lines of a field that is split at its newlines, and the line of a
    field that stays on one line; an absent field has no line. *)
Definition split_field {C} (present : bool) (tag : list C) (pieces : list (list C))
  : list (list C * list C) :=
  if present then map (pair tag) pieces else [].
Definition single_field {C} (present : bool) (tag value : list C)
  : list (list C * list C) :=
  if present then [(tag, value)] else [].

(** The lines of a text event, in the order of the specification: comment,
    id, event, data, retry. *)
Definition text_lines (comment id event data retry : PyVal) : list (str * str) :=
  split_field (is_not_None comment) (txt ": ") (str_split (py_str comment)) ++
  single_field (is_not_None id) (txt "id: ") (str_strip (str_of id)) ++
  single_field (is_not_None event) (txt "event: ") (str_strip (str_of event)) ++
  split_field (is_not_None data) (txt "data: ") (str_split (py_str data)) ++
  single_field (is_not_None retry) (txt "retry: ") (py_str retry).

(** The lines of a byte event, in the same order. *)
Definition byte_lines (comment id event data retry : PyVal) : list (bytes * bytes) :=
  split_field (is_not_None comment) (raw ": ") (bytes_split (bytes_of comment)) ++
  single_field (is_not_None id) (raw "id: ") (bytes_strip (bytes_of id)) ++
  single_field (is_not_None event) (raw "event: ") (bytes_strip (bytes_of event)) ++
  split_field (is_not_None data) (raw "data: ") (bytes_split (bytes_of data)) ++
  single_field (is_not_None retry) (raw "retry: ") (utf8 (py_str retry)).

(** ** The types of the fields *)

Definition is_str (v : PyVal) : bool := match v with PyStr _ => true | _ => false end.
Definition is_bytes (v : PyVal) : bool := match v with PyBytes _ => true | _ => false end.
Definition is_opt_str (v : PyVal) : bool := negb (is_not_None v) || is_str v.
Definition is_opt_bytes (v : PyVal) : bool := negb (is_not_None v) || is_bytes v.
Definition is_opt_int (v : PyVal) : bool := negb (is_not_None v) || isinstance_int v.

(** The fields of a text event have the types the encoder is written for:
    [id] and [event] are strings when present, [retry] is an integer when
    present and the separator is a string ([comment] and [data] may be
    anything, they are stringified). *)
Definition text_typed (id event retry sep : PyVal) : bool :=
  is_opt_str id && is_opt_str event && is_opt_int retry && is_str sep.

(** The fields of a byte event have the types the encoder is written for. *)
Definition bytes_typed (comment id event data retry sep : PyVal) : bool :=
  is_opt_bytes comment && is_opt_bytes id && is_opt_bytes event &&
  is_opt_bytes data && is_opt_int retry && is_bytes sep.

(** What a text event of event_class.py must look like for its [encode] to
    get through: string fields, no newline in [id] and [event], no retry. *)
Definition class_text_typed (e : event_class.ServerSentEventABC) : bool :=
  match event_class.__class__ e with
  | event_class.ServerSentEvent => true
  | event_class.ServerSentEventBytes => false
  end &&
  is_opt_str (event_class.comment e) &&
  is_opt_str (event_class.id e) && negb (str_has_sep (str_of (event_class.id e))) &&
  is_opt_str (event_class.event e) && negb (str_has_sep (str_of (event_class.event e))) &&
  is_opt_str (event_class.data e) &&
  negb (is_not_None (event_class.retry e)) &&
  is_str (event_class._sep e).

(** ** Values made of lines *)

(** The three newline conventions. *)
Inductive newline : Type := CRLF | CR_only | LF_only.

Definition is_LF_only (n : newline) : bool :=
  match n with LF_only => true | _ => false end.
Definition is_CR_only (n : newline) : bool :=
  match n with CR_only => true | _ => false end.

(** The characters of a newline, given the carriage return and the line
    feed of the character type. *)
Definition newline_chars {A} (cr lf : A) (n : newline) : list A :=
  match n with CRLF => [cr; lf] | CR_only => [cr] | LF_only => [lf] end.

(** A value made of a first line and further lines, each after a newline
    of its own convention. *)
Definition join_rest {A} (cr lf : A) (rest : list (newline * list A)) : list A :=
  flat_map (fun r => newline_chars cr lf (fst r) ++ snd r) rest.

Definition join_lines {A} (cr lf : A) (first : list A)
    (rest : list (newline * list A)) : list A :=
  first ++ join_rest cr lf rest.

(** A lone carriage return that ends an empty line right before a lone
    line feed would read as one CR LF pair: [unambiguous] excludes that. *)
Fixpoint unambiguous {A} (rest : list (newline * list A)) : bool :=
  match rest with
  | [] => true
  | (n, l) :: rest' =>
      negb (is_CR_only n && match l with [] => true | _ => false end &&
            match rest' with (n', _) :: _ => is_LF_only n' | [] => false end)
      && unambiguous rest'
  end.

(** A character that the expression matches, and a line without any. *)
Definition is_sep {A} (is_cr is_lf : A -> bool) (c : A) : bool := is_cr c || is_lf c.

Definition plain {A} (is_cr is_lf : A -> bool) (l : list A) : bool :=
  negb (has_line_sep is_cr is_lf l).

Definition str_plain (s : str) : bool := plain is_CR is_LF s.
Definition bytes_plain (b : bytes) : bool := plain is_bCR is_bLF b.
Definition str_join (first : str) (rest : list (newline * str)) : str :=
  join_lines CR LF first rest.
Definition bytes_join (first : bytes) (rest : list (newline * bytes)) : bytes :=
  join_lines bCR bLF first rest.

(** ** What a buffer computation does *)

(** [emits m out]: from any buffer, [m] returns and has appended [out]. *)
Definition emits {C} (m : io (list C) unit) (out : list C) : Prop :=
  forall buf, m buf = Return (tt, buf ++ out).

(** [raises_only P m]: whatever [m] raises satisfies [P]. *)
Definition raises_only {B A} (P : exn -> Prop) (m : io B A) : Prop :=
  forall buf e, m buf = Raise e -> P e.

(** [fails P m]: [m] raises from every buffer, and what it raises satisfies
    [P]. *)
Definition fails {B A} (P : exn -> Prop) (m : io B A) : Prop :=
  forall buf, exists e, m buf = Raise e /\ P e.

(** An error of the library calls: any [TypeError] but the one the retry
    check raises. *)
Definition library_error (e : exn) : Prop :=
  exists why, e = TypeError why /\ why <> RetryNotInt.

Definition is_type_error (e : exn) : Prop := exists why, e = TypeError why.
Definition not_retry_error (e : exn) : Prop := e <> TypeError RetryNotInt.

(** The retry check, for one encoder with result [r] on an event with retry
    field [v]: a value that is present and no integer makes the encoder
    raise a [TypeError]; otherwise the error of the check is not what it
    raises. *)
Definition retry_checked (v : PyVal) (r : result bytes) : Prop :=
  if is_not_None v && negb (isinstance_int v)
  then is_TypeError r
  else r <> Raise (TypeError RetryNotInt).

(** ** The events of the scenarios *)

(** Two lines of data, an event name and an id, and their frame. *)
Definition scenario_data : PyVal := PyStr (txt "line1" ++ [LF] ++ txt "line2").
Definition scenario_frame : bytes :=
  raw "id: 42" ++ [bCR; bLF] ++ raw "event: update" ++ [bCR; bLF] ++
  raw "data: line1" ++ [bCR; bLF] ++ raw "data: line2" ++ [bCR; bLF] ++ [bCR; bLF].

(** An event with every field set: a comment of two lines, an id, an event
    name, two lines of data and an integer retry; and its frame. *)
Definition full_text_event : event_function.ServerSentEvent :=
  event_function.__init__ scenario_data (PyStr (txt "update")) (PyStr (txt "42"))
    (PyInt 5000) (PyStr (txt "first" ++ [CR; LF] ++ txt "second")) PyNone.

Definition full_text_frame : bytes :=
  raw ": first" ++ [bCR; bLF] ++ raw ": second" ++ [bCR; bLF] ++
  raw "id: 42" ++ [bCR; bLF] ++ raw "event: update" ++ [bCR; bLF] ++
  raw "data: line1" ++ [bCR; bLF] ++ raw "data: line2" ++ [bCR; bLF] ++
  raw "retry: 5000" ++ [bCR; bLF] ++ [bCR; bLF].

(** The same event for the byte class of event_class.py, and the event
    without retry for its text class. *)
Definition full_bytes_event : event_class.ServerSentEventABC :=
  event_class.ServerSentEventBytes__init__
    (PyBytes (raw "line1" ++ [bLF] ++ raw "line2")) (PyBytes (raw "update"))
    (PyBytes (raw "42")) (PyInt 5000)
    (PyBytes (raw "first" ++ [bCR; bLF] ++ raw "second")) PyNone.

Definition full_bytes_frame : bytes :=
  raw ": first" ++ [bLF] ++ raw ": second" ++ [bLF] ++
  raw "id: 42" ++ [bLF] ++ raw "event: update" ++ [bLF] ++
  raw "data: line1" ++ [bLF] ++ raw "data: line2" ++ [bLF] ++
  raw "retry: 5000" ++ [bLF] ++ [bLF].

Definition class_text_event : event_class.ServerSentEventABC :=
  event_class.ServerSentEvent__init__ scenario_data (PyStr (txt "update"))
    (PyStr (txt "42")) PyNone (PyStr (txt "first" ++ [CR; LF] ++ txt "second")) PyNone.

Definition class_text_frame : bytes :=
  raw ": first" ++ [bCR; bLF] ++ raw ": second" ++ [bCR; bLF] ++
  raw "id: 42" ++ [bCR; bLF] ++ raw "event: update" ++ [bCR; bLF] ++
  raw "data: line1" ++ [bCR; bLF] ++ raw "data: line2" ++ [bCR; bLF] ++ [bCR; bLF].

(** The lines after the first of the value [a CR LF b LF LF c CR d]: it has
    five lines, the third of them empty. *)
Definition five_lines : list (newline * str) :=
  [(CRLF, txt "b"); (LF_only, []); (LF_only, txt "c"); (CR_only, txt "d")].

(** An id with a line feed in it, as text and as bytes. *)
Definition x_newline_y : str := txt "x" ++ [LF] ++ txt "y".
Definition bx_newline_y : bytes := raw "x" ++ [bLF] ++ raw "y".

(** ** Definitions for the further properties *)

(** [repl.join(pieces)] *)
Definition join_with {A} (repl : list A) (pieces : list (list A)) : list A :=
  match pieces with
  | [] => []
  | p :: ps => p ++ flat_map (app repl) ps
  end.

(** A field as the byte encoders take it: a string is UTF-8 encoded, any
    other value is left as it is. *)
Definition encoded (v : PyVal) : PyVal :=
  match v with PyStr s => PyBytes (utf8 s) | _ => v end.

(** A value without a code point that UTF-8 cannot encode. *)
Definition val_encodable (v : PyVal) : bool :=
  match v with PyStr s => forallb encodable s | _ => true end.

(** The fields of a text event that the byte encoders can take once
    encoded: every field but retry is a string when present, retry is an
    integer when present, the separator is a string, and no string holds a
    code point that UTF-8 cannot encode. *)
Definition encodable_event (data event id retry comment sep : PyVal) : bool :=
  is_opt_str comment && is_opt_str id && is_opt_str event && is_opt_str data &&
  is_opt_int retry && is_str sep &&
  val_encodable comment && val_encodable id && val_encodable event &&
  val_encodable data && val_encodable sep.

(** A line, UTF-8 encoded; a line whose characters all satisfy [P]. *)
Definition utf8_line (l : str * str) : bytes * bytes := (utf8 (fst l), utf8 (snd l)).
Definition line_forallb {C} (P : C -> bool) (l : list C * list C) : bool :=
  forallb P (fst l) && forallb P (snd l).

(** A mapping whose keys are all parameters of the constructor. *)
Definition valid_keys (d : gmap string PyVal) : Prop :=
  forall k, is_Some (d !! k) -> k ∈ init_params.

(** * Properties of the model *)

(** The scan on the corner cases of [re.split]: the empty subject, a
    trailing newline, a lone CR LF, and LF followed by CR. *)
Example str_split_corner_cases :
  str_split [] = [[]]
  /\ str_split [97; LF] = [[97]; []]
  /\ str_split [CR; LF] = [[]; []]
  /\ str_split [97; LF; CR; 98] = [[97]; []; [98]]
  /\ str_sub [] [97; CR; LF; 98; CR; 99; LF] = [97; 98; 99].
Proof. repeat split. Qed.

(** [str()] on a bytes object with a single quote, and on an integer. *)
Example py_str_examples :
  py_str (PyBytes (raw "a'b")) = [98; 34; 97; 39; 98; 34]
  /\ py_str (PyBytes [x00; bLF; xff]) = txt "b'\x00\n\xff'"
  /\ py_str (PyInt (-42)) = txt "-42"
  /\ py_str PyNone = txt "None".
Proof. repeat split. Qed.

(** ** Reasoning about buffer computations *)

Lemma io_bind_eq {B A C} (f : A -> io B C) (m : io B A) (buf : B) :
  (m ≫= f) buf =
  match m buf with Return (a, buf') => f a buf' | Raise e => Raise e end.
Proof. reflexivity. Qed.

Lemma emits_ret {C} : emits (C := C) (mret tt) [].
Proof. intros buf. by rewrite app_nil_r. Qed.

Lemma emits_then {C A} (m : io (list C) unit) (k : io (list C) A) out buf :
  emits m out -> (m ;; k) buf = k (buf ++ out).
Proof. intros Hm. by rewrite io_bind_eq, Hm. Qed.

Lemma emits_seq {C} (m k : io (list C) unit) o1 o2 :
  emits m o1 -> emits k o2 -> emits (m ;; k) (o1 ++ o2).
Proof.
  intros Hm Hk buf. rewrite (emits_then _ _ o1) by done.
  by rewrite Hk, app_assoc.
Qed.

Lemma emits_let {C A} (r : result A) (a : A) (k : A -> io (list C) unit) out :
  r = Return a -> emits (k a) out -> emits (lift r ≫= k) out.
Proof. intros -> Hk buf. rewrite io_bind_eq. apply Hk. Qed.

Lemma emits_when {C} (c : bool) (m : io (list C) unit) out :
  (c = true -> emits m out) -> emits (when c m) (if c then out else []).
Proof. destruct c; intros H; [by apply H | apply emits_ret]. Qed.

Lemma emits_StringIO_write (s : str) : emits (StringIO_write (PyStr s)) s.
Proof. by intros buf. Qed.

Lemma emits_BytesIO_write (b : bytes) : emits (BytesIO_write (PyBytes b)) b.
Proof. by intros buf. Qed.

Lemma run_getvalue {C} (m : io (list C) unit) out :
  emits m out -> run (m ;; getvalue) = Return out.
Proof. intros Hm. unfold run. by rewrite (emits_then _ _ out). Qed.

Lemma run_getvalue_encode (m : io str unit) out :
  emits m out ->
  run (m ;; value ← getvalue; lift (str_encode value)) = str_encode out.
Proof.
  intros Hm. unfold run. rewrite (emits_then _ _ out) by done.
  rewrite io_bind_eq. simpl. unfold lift. by destruct (str_encode out).
Qed.

(** ** The line-separator scan *)

Section LineSepFacts.
Context {A : Type} (is_cr is_lf : A -> bool).

Lemma split_lines_nonempty (s : list A) : split_lines is_cr is_lf s <> [].
Proof.
  induction s as [|c s IH]; simpl; [done|].
  destruct (is_cr c); [done|]. destruct (is_lf c); [done|].
  by destruct (split_lines is_cr is_lf s).
Qed.

(** Deleting every match is deleting every carriage return and every line
    feed. *)
Lemma sub_lines_nil (s : list A) :
  sub_lines is_cr is_lf [] s = List.filter (fun c => negb (is_sep is_cr is_lf c)) s.
Proof.
  unfold is_sep.
  assert (forall n s, (length s <= n)%nat ->
    sub_lines is_cr is_lf [] s = List.filter (fun c => negb (is_cr c || is_lf c)) s).
  { clear s. induction n as [|n IH]; intros [|c s] Hn; simpl in *; try done; try lia.
    destruct (is_cr c) eqn:Hc; simpl.
    - destruct s as [|c' s]; [done|].
      pose proof (IH (c' :: s) ltac:(lia)) as IH'. simpl in *.
      destruct (is_lf c') eqn:Hl; [|exact IH'].
      rewrite orb_true_r. simpl. apply IH. lia.
    - destruct (is_lf c); simpl; rewrite IH by lia; done. }
  by apply (H (length s)).
Qed.

(** A piece without a separator, then the rest. *)
Lemma split_lines_app_plain (a s : list A) :
  has_line_sep is_cr is_lf a = false ->
  split_lines is_cr is_lf (a ++ s) =
  match split_lines is_cr is_lf s with
  | l :: ls => (a ++ l) :: ls
  | [] => [a]
  end.
Proof.
  unfold has_line_sep. induction a as [|c a IH]; simpl.
  - intros _. destruct (split_lines is_cr is_lf s) eqn:E; [|done].
    by apply split_lines_nonempty in E.
  - intros [Hc Ha]%orb_false_elim. apply orb_false_elim in Hc as [-> ->].
    rewrite IH by done. by destruct (split_lines is_cr is_lf s).
Qed.
End LineSepFacts.

(** * The text encoder of event_function.py *)

Section TextBlocks.
Variable sep : str.

Lemma frame_unfold {C} (s : list C) lines :
  frame s lines = flat_map (line_out s) lines ++ s.
Proof. reflexivity. Qed.

Lemma flat_map_split_field {C} (s : list C) present tag pieces :
  flat_map (line_out s) (split_field present tag pieces) =
  if present then flat_map (fun p => tag ++ p ++ s) pieces else [].
Proof.
  destruct present; simpl; [|done].
  induction pieces as [|p ps IH]; simpl; [done|]. by rewrite IH.
Qed.

Lemma flat_map_single_field {C} (s : list C) present tag value :
  flat_map (line_out s) (single_field present tag value) =
  if present then tag ++ value ++ s else [].
Proof. destruct present; simpl; [|done]. unfold line_out. simpl. by rewrite app_nil_r. Qed.

(** A field written one f-string per piece. *)
Lemma emits_fstring_pieces (v : PyVal) (tag : str) :
  emits
    (when (is_not_None v) (
       chunks ← lift (re_split StrPattern (PyStr (py_str v)));
       for_each chunks (fun chunk =>
         StringIO_write (PyStr (tag ++ py_str chunk ++ sep)))))
    (flat_map (line_out sep) (split_field (is_not_None v) tag (str_split (py_str v)))).
Proof.
  rewrite flat_map_split_field. apply emits_when. intros _.
  eapply emits_let; [reflexivity|].
  induction (str_split (py_str v)) as [|p ps IH]; simpl.
  - apply emits_ret.
  - apply emits_seq; [apply emits_StringIO_write | apply IH].
Qed.

(** A field written as one concatenation, its newlines deleted. *)
Lemma emits_concat_stripped (v : PyVal) (tag : str) :
  is_opt_str v = true ->
  emits
    (when (is_not_None v) (
       cleaned ← lift (re_sub StrPattern (PyStr []) v);
       line ← lift (str_add tag cleaned);
       line ← lift (str_add line (PyStr sep));
       StringIO_write (PyStr line)))
    (flat_map (line_out sep) (single_field (is_not_None v) tag (str_strip (str_of v)))).
Proof.
  intros Hv. rewrite flat_map_single_field. apply emits_when. intros Hn.
  destruct v; try done. simpl.
  eapply emits_let; [reflexivity|]. eapply emits_let; [reflexivity|].
  eapply emits_let; [reflexivity|].
  unfold str_sub. rewrite sub_lines_nil.
  rewrite <- app_assoc. apply emits_StringIO_write.
Qed.

(** The retry field, checked and written as one f-string. *)
Lemma emits_fstring_retry (v : PyVal) :
  is_opt_int v = true ->
  emits
    (when (is_not_None v) (
       (if negb (isinstance_int v)
        then raise (TypeError RetryNotInt) else mret tt);;
       StringIO_write (PyStr (txt "retry: " ++ py_str v ++ sep))))
    (flat_map (line_out sep) (single_field (is_not_None v) (txt "retry: ") (py_str v))).
Proof.
  intros Hv. rewrite flat_map_single_field. apply emits_when. intros Hn.
  unfold is_opt_int in Hv. rewrite Hn in Hv. simpl in Hv. rewrite Hv.
  apply (emits_seq _ _ []); [apply emits_ret | apply emits_StringIO_write].
Qed.
End TextBlocks.

Lemma event_function_encode_frame (e : event_function.ServerSentEvent) :
  text_typed (event_function.id e) (event_function.event e)
             (event_function.retry e) (event_function._sep e) = true ->
  event_function.encode e =
  str_encode (frame (str_of (event_function._sep e))
                (text_lines (event_function.comment e) (event_function.id e)
                   (event_function.event e) (event_function.data e)
                   (event_function.retry e))).
Proof.
  destruct e as [data event id retry comment sep]. unfold text_typed.
  cbn [event_function.data event_function.event event_function.id
       event_function.retry event_function.comment event_function._sep].
  intros Hwf. repeat (apply andb_prop in Hwf as [Hwf ?]).
  destruct sep as [| | | |sep|]; try done.
  unfold event_function.encode, text_lines, run, event_function._LINE_SEP_EXPR.
  cbn [event_function.data event_function.event event_function.id
       event_function.retry event_function.comment event_function._sep
       py_str str_of].
  rewrite frame_unfold, !flat_map_app.
  erewrite emits_then by apply emits_fstring_pieces.
  erewrite emits_then by (by apply emits_concat_stripped).
  erewrite emits_then by (by apply emits_concat_stripped).
  erewrite emits_then by apply emits_fstring_pieces.
  erewrite emits_then by (by apply emits_fstring_retry).
  erewrite emits_then by apply emits_StringIO_write.
  rewrite io_bind_eq. simpl. rewrite <- !app_assoc. unfold lift.
  by destruct (str_encode _).
Qed.

(** * The encoders that write tag, value and separator one by one *)

Lemma encodable_txt (s : string) : forallb encodable (txt s) = true.
Proof.
  unfold txt. induction s as [|a s IH]; simpl; [done|].
  rewrite IH, andb_true_r. unfold encodable.
  pose proof (N_ascii_bounded a) as Ha.
  apply andb_true_intro. split.
  - apply orb_true_intro. left. apply N.ltb_lt. lia.
  - apply N.ltb_lt. lia.
Qed.

(** The decimal digits of an integer (and the name of a boolean) are ASCII:
    encoding them cannot fail. *)
Lemma str_encode_int (v : PyVal) :
  isinstance_int v = true -> str_encode (py_str v) = Return (utf8 (py_str v)).
Proof.
  unfold str_encode. destruct v as [|[]| | | |]; try done; intros _; simpl;
    by rewrite encodable_txt.
Qed.

Section WriteBlocks.
Context {C : Type} (inj : list C -> PyVal) (write : PyVal -> io (list C) unit).
Hypothesis write_ok : forall s, emits (write (inj s)) s.
Variable sep : list C.

(** A field written piece by piece. *)
Lemma emits_write_pieces (present : bool) (r : result (list PyVal))
    (tag : list C) (pieces : list (list C)) :
  (present = true -> r = Return (map inj pieces)) ->
  emits
    (when present (
       chunks ← lift r;
       for_each chunks (fun chunk =>
         write (inj tag);; write chunk;; write (inj sep))))
    (flat_map (line_out sep) (split_field present tag pieces)).
Proof.
  intros Hr. rewrite flat_map_split_field. apply emits_when. intros Hp.
  eapply emits_let; [by apply Hr|]. clear Hr.
  induction pieces as [|p ps IH]; simpl.
  - apply emits_ret.
  - apply emits_seq; [|apply IH].
    apply emits_seq; [apply write_ok|].
    apply emits_seq; apply write_ok.
Qed.

(** A field written once, its newlines deleted. *)
Lemma emits_write_stripped (present : bool) (r : result PyVal)
    (tag value : list C) :
  (present = true -> r = Return (inj value)) ->
  emits
    (when present (
       write (inj tag);;
       cleaned ← lift r;
       write cleaned;;
       write (inj sep)))
    (flat_map (line_out sep) (single_field present tag value)).
Proof.
  intros Hr. rewrite flat_map_single_field. apply emits_when. intros Hp.
  apply emits_seq; [apply write_ok|].
  eapply emits_let; [by apply Hr|].
  apply emits_seq; apply write_ok.
Qed.
End WriteBlocks.

(** The retry field, written into a byte buffer. *)
Lemma emits_write_retry (v : PyVal) (tag sep : bytes) :
  is_opt_int v = true ->
  emits
    (when (is_not_None v) (
       (if negb (isinstance_int v)
        then raise (TypeError RetryNotInt) else mret tt);;
       BytesIO_write (PyBytes tag);;
       digits ← lift (str_encode (py_str v));
       BytesIO_write (PyBytes digits);;
       BytesIO_write (PyBytes sep)))
    (flat_map (line_out sep) (single_field (is_not_None v) tag (utf8 (py_str v)))).
Proof.
  intros Hv. rewrite flat_map_single_field. apply emits_when. intros Hn.
  unfold is_opt_int in Hv. rewrite Hn in Hv. simpl in Hv. rewrite Hv.
  apply (emits_seq _ _ []); [apply emits_ret|].
  apply emits_seq; [apply emits_BytesIO_write|].
  eapply emits_let; [by apply str_encode_int|].
  apply emits_seq; apply emits_BytesIO_write.
Qed.

Lemma re_split_bytes (v : PyVal) :
  is_opt_bytes v = true -> is_not_None v = true ->
  re_split BytesPattern v = Return (map PyBytes (bytes_split (bytes_of v))).
Proof. by destruct v. Qed.

Lemma re_sub_bytes (v : PyVal) :
  is_opt_bytes v = true -> is_not_None v = true ->
  re_sub BytesPattern (PyBytes []) v = Return (PyBytes (bytes_strip (bytes_of v))).
Proof.
  destruct v; try done. intros _ _. simpl.
  unfold bytes_sub. by rewrite sub_lines_nil.
Qed.

Lemma event_from_bytes_frame (self data event id retry comment sep : PyVal) :
  let _sep := if is_not_None sep then sep else event_function.DEFAULT_SEPARATOR_BYTES in
  bytes_typed comment id event data retry _sep = true ->
  event_function.event_from_bytes self data event id retry comment sep =
  Return (frame (bytes_of _sep) (byte_lines comment id event data retry)).
Proof.
  intros _sep. unfold bytes_typed. intros Hwf.
  repeat (apply andb_prop in Hwf as [Hwf ?]).
  unfold event_function.event_from_bytes. fold _sep.
  destruct _sep as [| | | | |s]; try done.
  unfold byte_lines, event_function._LINE_SEP_EXPR_BYTES. cbn [bytes_of].
  rewrite frame_unfold, !flat_map_app. unfold run. cbv zeta.
  erewrite emits_then
    by (apply (emits_write_pieces PyBytes), re_split_bytes;
        [apply emits_BytesIO_write | done]).
  erewrite emits_then
    by (apply (emits_write_stripped PyBytes), re_sub_bytes;
        [apply emits_BytesIO_write | done]).
  erewrite emits_then
    by (apply (emits_write_stripped PyBytes), re_sub_bytes;
        [apply emits_BytesIO_write | done]).
  erewrite emits_then
    by (apply (emits_write_pieces PyBytes), re_split_bytes;
        [apply emits_BytesIO_write | done]).
  erewrite emits_then by (by apply emits_write_retry).
  erewrite emits_then by apply emits_BytesIO_write.
  simpl. by rewrite <- !app_assoc.
Qed.

(** * The encoders of event_class.py *)

Lemma _encode_bytes_frame (e : event_class.ServerSentEventABC) :
  event_class.__class__ e = event_class.ServerSentEventBytes ->
  bytes_typed (event_class.comment e) (event_class.id e) (event_class.event e)
              (event_class.data e) (event_class.retry e) (event_class._sep e) = true ->
  emits (event_class._encode e BytesIO_write)
        (frame (bytes_of (event_class._sep e))
           (byte_lines (event_class.comment e) (event_class.id e)
              (event_class.event e) (event_class.data e) (event_class.retry e))).
Proof.
  destruct e as [c data event id retry comment sep]. simpl. intros ->.
  unfold bytes_typed. intros Hwf. repeat (apply andb_prop in Hwf as [Hwf ?]).
  destruct sep as [| | | | |sep]; try done.
  unfold byte_lines, event_class._encode.
  cbn [bytes_of event_class.__class__ event_class.data event_class.event
       event_class.id event_class.retry event_class.comment event_class._sep
       event_class._LINE_SEP_EXPR event_class.TAG_COMMENT event_class.TAG_ID
       event_class.TAG_EVENT event_class.TAG_DATA event_class.TAG_RETRY].
  rewrite frame_unfold, !flat_map_app, <- !app_assoc.
  repeat apply emits_seq.
  - apply (emits_write_pieces PyBytes), re_split_bytes;
      [apply emits_BytesIO_write | done].
  - apply (emits_write_stripped PyBytes), re_sub_bytes;
      [apply emits_BytesIO_write | done].
  - apply (emits_write_stripped PyBytes), re_sub_bytes;
      [apply emits_BytesIO_write | done].
  - apply (emits_write_pieces PyBytes), re_split_bytes;
      [apply emits_BytesIO_write | done].
  - by apply emits_write_retry.
  - apply emits_BytesIO_write.
Qed.

Lemma str_strip_plain (s : str) : str_has_sep s = false -> str_strip s = s.
Proof.
  unfold str_has_sep, has_line_sep, str_strip.
  induction s as [|c s IH]; simpl; [done|].
  intros [-> Hs]%orb_false_elim. simpl. by rewrite IH.
Qed.

Lemma re_split_str (v : PyVal) :
  is_opt_str v = true -> is_not_None v = true ->
  re_split StrPattern v = Return (map PyStr (str_split (py_str v))).
Proof. by destruct v. Qed.

Lemma re_sub_str_bytes_repl (v : PyVal) :
  is_opt_str v = true -> str_has_sep (str_of v) = false -> is_not_None v = true ->
  re_sub StrPattern (PyBytes []) v = Return (PyStr (str_strip (str_of v))).
Proof.
  destruct v; try done. simpl. intros _ Hs _. by rewrite Hs, str_strip_plain.
Qed.

Lemma class_text_encode_frame (e : event_class.ServerSentEventABC) :
  class_text_typed e = true ->
  event_class.ServerSentEvent_encode e =
  str_encode (frame (str_of (event_class._sep e))
                (text_lines (event_class.comment e) (event_class.id e)
                   (event_class.event e) (event_class.data e)
                   (event_class.retry e))).
Proof.
  destruct e as [c data event id retry comment sep]. unfold class_text_typed.
  simpl. intros Hwf. repeat (apply andb_prop in Hwf as [Hwf ?]).
  destruct c; [|done]. destruct sep as [| | | |sep|]; try done.
  destruct retry; try done.
  repeat match goal with H : negb _ = true |- _ => apply negb_true_iff in H end.
  unfold event_class.ServerSentEvent_encode. cbv zeta.
  apply run_getvalue_encode.
  unfold text_lines, event_class._encode.
  cbn [str_of event_class.__class__ event_class.data event_class.event
       event_class.id event_class.retry event_class.comment event_class._sep
       event_class._LINE_SEP_EXPR event_class.TAG_COMMENT event_class.TAG_ID
       event_class.TAG_EVENT event_class.TAG_DATA event_class.TAG_RETRY].
  rewrite frame_unfold, !flat_map_app, <- !app_assoc.
  repeat apply emits_seq.
  - apply (emits_write_pieces PyStr), re_split_str;
      [apply emits_StringIO_write | done].
  - apply (emits_write_stripped PyStr), re_sub_str_bytes_repl;
      [apply emits_StringIO_write | done | done].
  - apply (emits_write_stripped PyStr), re_sub_str_bytes_repl;
      [apply emits_StringIO_write | done | done].
  - apply (emits_write_pieces PyStr), re_split_str;
      [apply emits_StringIO_write | done].
  - apply emits_ret.
  - apply emits_StringIO_write.
Qed.

(** * Values made of lines *)

Section Joined.
Context {A : Type} (is_cr is_lf : A -> bool) (cr lf : A).
Hypothesis cr_is_cr : is_cr cr = true.
Hypothesis lf_is_lf : is_lf lf = true.
Hypothesis lf_not_cr : is_cr lf = false.
Hypothesis cr_not_lf : is_lf cr = false.

Lemma join_rest_cons n l rest :
  join_rest cr lf ((n, l) :: rest) = newline_chars cr lf n ++ l ++ join_rest cr lf rest.
Proof. unfold join_rest. simpl. by rewrite <- app_assoc. Qed.

Lemma split_join_rest (rest : list (newline * list A)) :
  forallb (fun r => plain is_cr is_lf (snd r)) rest = true ->
  unambiguous rest = true ->
  split_lines is_cr is_lf (join_rest cr lf rest) = [] :: map snd rest.
Proof.
  induction rest as [|[n l] rest IH]; [done|].
  cbn [forallb unambiguous snd]. intros [Hl Hrest]%andb_prop [Hn Hu]%andb_prop.
  specialize (IH Hrest Hu). apply negb_true_iff in Hl, Hn.
  assert (Htail : split_lines is_cr is_lf (l ++ join_rest cr lf rest) = l :: map snd rest).
  { rewrite split_lines_app_plain, IH by done. by rewrite app_nil_r. }
  rewrite join_rest_cons.
  destruct n; cbn [newline_chars app split_lines map snd].
  - by rewrite cr_is_cr, lf_is_lf, Htail.
  - rewrite cr_is_cr. f_equal.
    destruct l as [|c l]; cbn [app].
    + destruct rest as [|[n' l'] rest]; [done|].
      rewrite join_rest_cons in *.
      destruct n'; try done; cbn [newline_chars app] in *.
      * by rewrite cr_not_lf.
      * by rewrite cr_not_lf.
    + cbn [app] in Htail. unfold has_line_sep in Hl. cbn [existsb] in Hl.
      apply orb_false_elim in Hl as [Hc _].
      apply orb_false_elim in Hc as [_ ->]. done.
  - by rewrite lf_not_cr, lf_is_lf, Htail.
Qed.

Lemma join_lines_one (first : list A) (n : newline) (l : list A) :
  join_lines cr lf first [(n, l)] = first ++ newline_chars cr lf n ++ l.
Proof. unfold join_lines. by rewrite join_rest_cons, app_nil_r. Qed.

(** Splitting gives back the lines, in their order. *)
Lemma split_join_lines (first : list A) (rest : list (newline * list A)) :
  plain is_cr is_lf first = true ->
  forallb (fun r => plain is_cr is_lf (snd r)) rest = true ->
  unambiguous rest = true ->
  split_lines is_cr is_lf (join_lines cr lf first rest) = first :: map snd rest.
Proof.
  intros Hf%negb_true_iff Hrest Hu. unfold join_lines.
  rewrite split_lines_app_plain, split_join_rest by done.
  by rewrite app_nil_r.
Qed.
End Joined.

(** * What the encoders can raise *)

Lemma raises_only_ret {B A} P (a : A) : raises_only (B := B) P (mret a).
Proof. intros buf e He. discriminate He. Qed.

Lemma raises_only_raise {B A} (P : exn -> Prop) e :
  P e -> raises_only (B := B) (A := A) P (raise e).
Proof. intros HP buf e' [= <-]. done. Qed.

Lemma raises_only_bind {B A C} P (m : io B A) (k : A -> io B C) :
  raises_only P m -> (forall a, raises_only P (k a)) -> raises_only P (m ≫= k).
Proof.
  intros Hm Hk buf e. rewrite io_bind_eq.
  destruct (m buf) as [[a buf']|e'] eqn:E.
  - apply Hk.
  - intros [= <-]. by eapply Hm.
Qed.

Lemma raises_only_lift {B A} (P : exn -> Prop) (r : result A) :
  (forall e, r = Raise e -> P e) -> raises_only (B := B) P (lift r).
Proof. intros Hr buf e. unfold lift. destruct r; [done|]. intros [= <-]. by apply Hr. Qed.

Lemma raises_only_when {B} P (c : bool) (m : io B unit) :
  raises_only P m -> raises_only P (when c m).
Proof. destruct c; [done|]. intros _. apply raises_only_ret. Qed.

Lemma raises_only_for_each {B A} P (xs : list A) (body : A -> io B unit) :
  (forall x, raises_only P (body x)) -> raises_only P (for_each xs body).
Proof.
  intros Hbody. induction xs as [|x xs IH]; simpl.
  - apply raises_only_ret.
  - apply raises_only_bind; [apply Hbody | by intros _].
Qed.

Lemma raises_only_getvalue {B} P : raises_only (B := B) P getvalue.
Proof. intros buf e He. discriminate He. Qed.

Lemma raises_only_StringIO_write (P : exn -> Prop) v :
  P (TypeError WriteMismatch) -> raises_only P (StringIO_write v).
Proof. intros HP buf e. destruct v; simpl; try done; by intros [= <-]. Qed.

Lemma raises_only_BytesIO_write (P : exn -> Prop) v :
  P (TypeError WriteMismatch) -> raises_only P (BytesIO_write v).
Proof. intros HP buf e. destruct v; simpl; try done; by intros [= <-]. Qed.

Lemma re_split_raises p v e : re_split p v = Raise e -> library_error e.
Proof. destruct p, v; simpl; try done; intros [= <-]; by eexists. Qed.

Lemma re_sub_raises p repl v e : re_sub p repl v = Raise e -> library_error e.
Proof.
  destruct p, v; simpl; try (intros [= <-]; by eexists);
    destruct repl; simpl; try done; try (intros [= <-]; by eexists).
  - destruct (str_has_sep s); [|done]. intros [= <-]; by eexists.
  - destruct (bytes_has_sep b); [|done]. intros [= <-]; by eexists.
Qed.

Lemma str_add_raises s v e : str_add s v = Raise e -> library_error e.
Proof. destruct v; simpl; try done; intros [= <-]; by eexists. Qed.

Lemma library_error_WriteMismatch : library_error (TypeError WriteMismatch).
Proof. by eexists. Qed.

Lemma run_raises {C A} (P : exn -> Prop) (m : io (list C) A) e :
  raises_only P m -> run m = Raise e -> P e.
Proof.
  intros Hm. unfold run. destruct (m []) as [[a buf]|e'] eqn:E; [done|].
  intros [= <-]. by eapply Hm.
Qed.

Lemma fails_after {B A C} P (m : io B A) (k : A -> io B C) :
  raises_only P m -> (forall a, fails P (k a)) -> fails P (m ≫= k).
Proof.
  intros Hm Hk buf. rewrite io_bind_eq.
  destruct (m buf) as [[a buf']|e] eqn:E; [apply Hk|].
  exists e. split; [done|]. by eapply Hm.
Qed.

Lemma fails_first {B A C} P (m : io B A) (k : A -> io B C) :
  fails P m -> fails P (m ≫= k).
Proof. intros Hm buf. rewrite io_bind_eq. destruct (Hm buf) as (e & -> & He). eauto. Qed.

Lemma run_fails {C A} (P : exn -> Prop) (m : io (list C) A) :
  fails P m -> exists e, run m = Raise e /\ P e.
Proof. intros Hm. unfold run. destruct (Hm []) as (e & -> & He). eauto. Qed.

(** The retry check stops the encoder when the value is present and no
    integer. *)
Lemma fails_retry_check {B} (P : exn -> Prop) (v : PyVal) (k : io B unit) :
  P (TypeError RetryNotInt) ->
  is_not_None v = true -> isinstance_int v = false ->
  fails P (when (is_not_None v) (
             (if negb (isinstance_int v)
              then raise (TypeError RetryNotInt) else mret tt);; k)).
Proof. intros HP -> ->. simpl. intros buf. eauto. Qed.

Lemma library_error_is_type_error e : library_error e -> exists why, e = TypeError why.
Proof. intros (why & -> & _). eauto. Qed.

Lemma library_error_not_retry e : library_error e -> e <> TypeError RetryNotInt.
Proof. intros (why & -> & Hw) [= ->]. done. Qed.

Lemma str_encode_raises s e : str_encode s = Raise e -> e = UnicodeEncodeError.
Proof. unfold str_encode. destruct (forallb encodable s); [done|]. by intros [= <-]. Qed.

(** Closing the routine goals on what a block raises; [HP] says that the
    property at hand holds of every library error. *)
Ltac raises_only_tac HP :=
  repeat first
    [ apply raises_only_ret
    | apply raises_only_getvalue
    | apply raises_only_when
    | apply raises_only_for_each; intros ?
    | apply raises_only_StringIO_write; apply HP, library_error_WriteMismatch
    | apply raises_only_BytesIO_write; apply HP, library_error_WriteMismatch
    | apply raises_only_lift; intros ? ?;
      first [ solve [apply HP; eauto using re_split_raises, re_sub_raises, str_add_raises]
            | match goal with H : str_encode _ = Raise _ |- _ =>
                apply str_encode_raises in H; subst; done end ]
    | apply raises_only_bind; [|intros ?] ].

(** The retry block raises nothing of its own when the value is absent or an
    integer. *)
Lemma raises_only_retry_block {B} (P : exn -> Prop) (v : PyVal) (k : io B unit) :
  is_opt_int v = true ->
  raises_only P k ->
  raises_only P (when (is_not_None v) (
                   (if negb (isinstance_int v)
                    then raise (TypeError RetryNotInt) else mret tt);; k)).
Proof.
  intros Hv Hk. unfold is_opt_int in Hv.
  destruct (is_not_None v); simpl in *; [|apply raises_only_ret].
  rewrite Hv. simpl. apply raises_only_bind; [apply raises_only_ret | done].
Qed.

Lemma retry_checked_intro (v : PyVal) (r : result bytes) :
  (is_not_None v = true -> isinstance_int v = false ->
   exists e, r = Raise e /\ is_type_error e) ->
  (is_opt_int v = true -> forall e, r = Raise e -> not_retry_error e) ->
  retry_checked v r.
Proof.
  intros Ha Hb. unfold retry_checked.
  destruct (is_not_None v) eqn:Hn, (isinstance_int v) eqn:Hi; simpl.
  - intros Hr. by eapply Hb; [unfold is_opt_int; rewrite Hi, orb_true_r|..].
  - destruct Ha as (e & -> & why & ->); [done..|]. by exists why.
  - intros Hr. by eapply Hb; [unfold is_opt_int; rewrite Hn|..].
  - intros Hr. by eapply Hb; [unfold is_opt_int; rewrite Hn|..].
Qed.

Lemma event_function_encode_retry_checked (e : event_function.ServerSentEvent) :
  retry_checked (event_function.retry e) (event_function.encode e).
Proof.
  destruct e as [data event id retry comment sep].
  cbn [event_function.retry]. apply retry_checked_intro.
  - intros Hn Hi. apply run_fails. unfold event_function.encode.
    cbn [event_function.data event_function.event event_function.id
         event_function.retry event_function.comment event_function._sep].
    pose proof library_error_is_type_error as HP.
    do 4 (apply fails_after; [by raises_only_tac HP | intros _]).
    apply fails_first, fails_retry_check; try done. by eexists.
  - intros Hv err Hr. eapply run_raises in Hr; [exact Hr|].
    pose proof library_error_not_retry as HP.
    cbn [event_function.data event_function.event event_function.id
         event_function.retry event_function.comment event_function._sep].
    do 4 (apply raises_only_bind; [by raises_only_tac HP | intros _]).
    apply raises_only_bind; [|intros _; by raises_only_tac HP].
    apply raises_only_retry_block; [done|]. by raises_only_tac HP.
Qed.

Lemma event_from_bytes_retry_checked (self data event id retry comment sep : PyVal) :
  retry_checked retry
    (event_function.event_from_bytes self data event id retry comment sep).
Proof.
  apply retry_checked_intro.
  - intros Hn Hi. apply run_fails. unfold event_function.event_from_bytes.
    cbv zeta. pose proof library_error_is_type_error as HP.
    do 4 (apply fails_after; [by raises_only_tac HP | intros _]).
    apply fails_first, fails_retry_check; try done. by eexists.
  - intros Hv err Hr. eapply run_raises in Hr; [exact Hr|].
    pose proof library_error_not_retry as HP. cbv zeta.
    do 4 (apply raises_only_bind; [by raises_only_tac HP | intros _]).
    apply raises_only_bind; [|intros _; by raises_only_tac HP].
    apply raises_only_retry_block; [done|]. by raises_only_tac HP.
Qed.

Section ClassEncode.
Context {B : Type} (write : PyVal -> io B unit) (P : exn -> Prop).
Hypothesis HP : forall e, library_error e -> P e.
Hypothesis Hw : forall v, raises_only P (write v).

Ltac blocks := raises_only_tac HP; try apply Hw.

Lemma _encode_fails (e : event_class.ServerSentEventABC) :
  P (TypeError RetryNotInt) ->
  is_not_None (event_class.retry e) = true ->
  isinstance_int (event_class.retry e) = false ->
  fails P (event_class._encode e write).
Proof.
  intros HR Hn Hi. unfold event_class._encode. cbv zeta.
  do 4 (apply fails_after; [by repeat blocks | intros _]).
  by apply fails_first, fails_retry_check.
Qed.

Lemma _encode_raises_only (e : event_class.ServerSentEventABC) :
  P UnicodeEncodeError ->
  is_opt_int (event_class.retry e) = true ->
  raises_only P (event_class._encode e write).
Proof.
  intros HU Hv. unfold event_class._encode. cbv zeta.
  do 4 (apply raises_only_bind; [by repeat blocks | intros _]).
  apply raises_only_bind; [|intros _; by apply Hw].
  apply raises_only_retry_block; [done|].
  apply raises_only_bind; [by apply Hw | intros _].
  apply raises_only_bind.
  - apply raises_only_lift. intros err Herr.
    by apply str_encode_raises in Herr as ->.
  - intros digits. by repeat blocks.
Qed.
End ClassEncode.

Lemma class_text_encode_retry_checked (e : event_class.ServerSentEventABC) :
  retry_checked (event_class.retry e) (event_class.ServerSentEvent_encode e).
Proof.
  apply retry_checked_intro.
  - intros Hn Hi. apply run_fails. unfold event_class.ServerSentEvent_encode.
    cbv zeta. apply fails_first, _encode_fails; try done.
    + apply library_error_is_type_error.
    + intros v. apply raises_only_StringIO_write. by eexists.
    + by eexists.
  - intros Hv err Hr. eapply run_raises in Hr; [exact Hr|]. cbv zeta.
    pose proof library_error_not_retry as HP.
    apply raises_only_bind; [|intros _; by raises_only_tac HP].
    apply _encode_raises_only; try done.
    intros v. by apply raises_only_StringIO_write.
Qed.

Lemma class_bytes_writer_retry_checked (e : event_class.ServerSentEventABC) :
  retry_checked (event_class.retry e)
    (run (event_class._encode e BytesIO_write;; getvalue)).
Proof.
  apply retry_checked_intro.
  - intros Hn Hi. apply run_fails.
    apply fails_first, _encode_fails; try done.
    + apply library_error_is_type_error.
    + intros v. apply raises_only_BytesIO_write. by eexists.
    + by eexists.
  - intros Hv err Hr. eapply run_raises in Hr; [exact Hr|].
    apply raises_only_bind; [|intros _; apply raises_only_getvalue].
    apply _encode_raises_only; try done.
    + apply library_error_not_retry.
    + intros v. by apply raises_only_BytesIO_write.
Qed.

(** The byte class's own [encode] never gets as far as the check. *)
Lemma class_bytes_encode_arity (depth : nat) (e : event_class.ServerSentEventABC) :
  event_class.ServerSentEventBytes_encode (S depth) e [] = Raise (TypeError BadArity).
Proof. by destruct depth. Qed.

(** * The blank line that ends a frame *)

(** A frame without lines is the separator alone. *)
Lemma frame_no_lines {C} (sep : list C) : frame sep [] = sep.
Proof. reflexivity. Qed.

(** A frame with lines ends with the separator of its last line followed by
    one more separator. *)
Lemma frame_blank_line {C} (sep : list C) (lines : list (list C * list C)) :
  lines <> [] ->
  exists body, frame sep lines = body ++ sep ++ sep.
Proof.
  intros Hne. destruct (exists_last Hne) as (init & [tag value] & ->).
  exists (flat_map (line_out sep) init ++ tag ++ value).
  rewrite frame_unfold, flat_map_app. simpl. unfold line_out at 2. simpl.
  by rewrite app_nil_r, <- !app_assoc.
Qed.

(** So the frame of a typed text event of event_function.py is the
    separator alone when the event has no line, and ends with a blank line
    otherwise. *)
Lemma event_function_encode_blank_line (e : event_function.ServerSentEvent) :
  text_typed (event_function.id e) (event_function.event e)
             (event_function.retry e) (event_function._sep e) = true ->
  let sep := str_of (event_function._sep e) in
  let lines := text_lines (event_function.comment e) (event_function.id e)
                 (event_function.event e) (event_function.data e)
                 (event_function.retry e) in
  (lines = [] /\ event_function.encode e = str_encode sep)
  \/ (exists body, event_function.encode e = str_encode (body ++ sep ++ sep)).
Proof.
  intros Ht sep lines. rewrite event_function_encode_frame by done.
  fold sep lines. destruct lines as [|l ls] eqn:E; [by left|].
  right. destruct (frame_blank_line sep (l :: ls)) as [body ->]; [done|].
  by exists body.
Qed.

(** An event with no field has no line. *)
Lemma text_lines_no_field : text_lines PyNone PyNone PyNone PyNone PyNone = [].
Proof. reflexivity. Qed.

Lemma byte_lines_no_field : byte_lines PyNone PyNone PyNone PyNone PyNone = [].
Proof. reflexivity. Qed.

(** The event with no field set: through event_function.py it is the
    separator alone. *)
Lemma event_function_empty_event (sep : PyVal) :
  is_opt_str sep = true ->
  event_function.encode
    (event_function.__init__ PyNone PyNone PyNone PyNone PyNone sep) =
  str_encode (str_of (event_function._sep
    (event_function.__init__ PyNone PyNone PyNone PyNone PyNone sep))).
Proof.
  intros Hsep. rewrite event_function_encode_frame; [done|].
  by destruct sep.
Qed.

(** ** Lines, in text and in bytes *)

Lemma str_split_join (first : str) (rest : list (newline * str)) :
  str_plain first = true ->
  forallb (fun r => str_plain (snd r)) rest = true ->
  unambiguous rest = true ->
  str_split (str_join first rest) = first :: map snd rest.
Proof. by apply split_join_lines. Qed.

(** Two lines, joined by one newline. *)
Lemma str_split_two (n : newline) (a b : str) :
  str_plain a = true -> str_plain b = true ->
  str_split (a ++ newline_chars CR LF n ++ b) = [a; b].
Proof.
  intros Ha Hb. rewrite <- join_lines_one.
  apply (str_split_join a [(n, b)]); [done|by simpl; rewrite Hb|].
  simpl. by rewrite !andb_false_r.
Qed.

Lemma bytes_split_two (n : newline) (a b : bytes) :
  bytes_plain a = true -> bytes_plain b = true ->
  bytes_split (a ++ newline_chars bCR bLF n ++ b) = [a; b].
Proof.
  intros Ha Hb. rewrite <- join_lines_one.
  apply (split_join_lines is_bCR is_bLF bCR bLF); try done.
  - simpl. by rewrite andb_true_r.
  - simpl. by rewrite !andb_false_r.
Qed.

Lemma bytes_split_join (first : bytes) (rest : list (newline * bytes)) :
  bytes_plain first = true ->
  forallb (fun r => bytes_plain (snd r)) rest = true ->
  unambiguous rest = true ->
  bytes_split (bytes_join first rest) = first :: map snd rest.
Proof. by apply split_join_lines. Qed.

(** The frame of an event that has data only. *)
Lemma frame_data_only {C} (sep tag : list C) (pieces : list (list C)) :
  frame sep (split_field false tag [] ++ single_field false tag [] ++
             single_field false tag [] ++ split_field true tag pieces ++
             single_field false tag []) =
  flat_map (fun l => tag ++ l ++ sep) pieces ++ sep.
Proof.
  rewrite frame_unfold, !flat_map_app, !flat_map_split_field, !flat_map_single_field.
  simpl. by rewrite app_nil_r.
Qed.

(** ** The text class of event_class.py on newlines and on retry *)

(** A newline in the id makes the text class raise: the replacement handed
    to the expression is a bytes object. *)
Lemma class_text_id_newline_raises (data event retry sep : PyVal) (s : str) :
  str_has_sep s = true ->
  event_class.ServerSentEvent_encode
    (event_class.ServerSentEvent__init__ data event (PyStr s) retry PyNone sep)
  = Raise (TypeError JoinMismatch).
Proof.
  intros Hs. unfold event_class.ServerSentEvent_encode, event_class._encode, run.
  cbn. by rewrite Hs.
Qed.

(** A retry that passes the check is handed to the text buffer as bytes:
    the text class returns no frame for any event with an integer retry. *)
Lemma class_text_retry_never_written (e : event_class.ServerSentEventABC) :
  event_class.__class__ e = event_class.ServerSentEvent ->
  is_not_None (event_class.retry e) = true ->
  isinstance_int (event_class.retry e) = true ->
  forall out, event_class.ServerSentEvent_encode e <> Return out.
Proof.
  destruct e as [c data event id retry comment sep]. simpl.
  intros -> Hn Hi out Hout.
  assert (Hf : fails (fun _ => True)
                 (event_class._encode
                    (event_class.Build_ServerSentEventABC event_class.ServerSentEvent
                       data event id retry comment sep) StringIO_write)).
  { unfold event_class._encode.
    cbn [event_class.__class__ event_class.data event_class.event event_class.id
         event_class.retry event_class.comment event_class._sep].
    do 4 (apply fails_after; [by intros ? ? ? | intros _]).
    apply fails_first. rewrite Hn, Hi. simpl.
    intros buf. rewrite !io_bind_eq. simpl.
    rewrite (str_encode_int retry Hi). simpl. eauto. }
  unfold event_class.ServerSentEvent_encode, run in Hout. cbv zeta in Hout.
  rewrite io_bind_eq in Hout. destruct (Hf []) as (err & Herr & _).
  by rewrite Herr in Hout.
Qed.

(** * The claims *)

(** C1 (the code departs from the claim).  The claim: every encoded event
    ends with one more separator after the separator of its last line, and
    the event with no field set is encoded as exactly one separator.  The
    text class of event_class.py stringifies [data] in its constructor, so
    the absent payload becomes the string [None]: the event with no field
    set is encoded as the line [data: None], then the blank line.  The text
    class of event_function.py encodes the same event as the separator
    alone. *)
Theorem C1_class_text_empty_event_has_data_line :
  event_class.ServerSentEvent_encode
    (event_class.ServerSentEvent__init__ PyNone PyNone PyNone PyNone PyNone PyNone)
  = Return (raw "data: None" ++ [bCR; bLF; bCR; bLF])
  /\ event_class.ServerSentEvent_encode
       (event_class.ServerSentEvent__init__ PyNone PyNone PyNone PyNone PyNone PyNone)
     <> Return [bCR; bLF]
  /\ event_function.encode
       (event_function.__init__ PyNone PyNone PyNone PyNone PyNone PyNone)
     = Return [bCR; bLF].
Proof. split; [|split]; [reflexivity | discriminate | reflexivity]. Qed.

(** C2, as the claim states it, fails: the byte encoder of
    event_function.py ends its lines with CR LF by default, so the keep-alive
    comment is not encoded with bare line feeds. *)
Lemma C2_function_bytes_default_is_not_lf :
  event_function.DEFAULT_SEPARATOR_BYTES <> PyBytes [bLF]
  /\ event_function.event_from_bytes
       PyNone PyNone PyNone PyNone PyNone (PyBytes (raw "keep-alive")) PyNone
     <> Return (raw ": keep-alive" ++ [bLF; bLF]).
Proof. split; discriminate. Qed.

(** C2 (amended).  The text events of both modules default to CR LF.  The
    byte class of event_class.py defaults to a bare LF, the byte encoder of
    event_function.py to CR LF.  For the comment [keep-alive] alone and no
    separator given, the writer [_encode] of the byte class leaves exactly
    [: keep-alive], LF, LF in a byte buffer, and [event_from_bytes] returns
    exactly [: keep-alive], CR LF, CR LF. *)
Theorem C2_default_separators :
  (forall d e i r c,
     event_function._sep (event_function.__init__ d e i r c PyNone) = PyStr [CR; LF])
  /\ (forall d e i r c,
        event_class._sep (event_class.ServerSentEvent__init__ d e i r c PyNone)
        = PyStr [CR; LF])
  /\ (forall d e i r c,
        event_class._sep (event_class.ServerSentEventBytes__init__ d e i r c PyNone)
        = PyBytes [bLF])
  /\ event_function.DEFAULT_SEPARATOR_BYTES = PyBytes [bCR; bLF]
  /\ run (event_class._encode
            (event_class.ServerSentEventBytes__init__
               PyNone PyNone PyNone PyNone (PyBytes (raw "keep-alive")) PyNone)
            BytesIO_write;; getvalue)
     = Return (raw ": keep-alive" ++ [bLF; bLF])
  /\ event_function.event_from_bytes
       PyNone PyNone PyNone PyNone PyNone (PyBytes (raw "keep-alive")) PyNone
     = Return (raw ": keep-alive" ++ [bCR; bLF; bCR; bLF]).
Proof. repeat split. Qed.

(** C3.  The [encode] method of the byte class calls itself with the
    buffer's [write] as an argument instead of calling [_encode]: whatever
    the event and whatever room the call stack has, it returns no frame.
    With room for the inner call, that call is refused for its extra
    argument; without, the recursion limit is hit.  The same holds when the
    method is reached through [data.encode()] on an instance of the byte
    class.  The writer [_encode] itself, on a byte buffer, does produce a
    frame: [data: hello], LF, LF for the payload [hello]. *)
Theorem C3_bytes_encode_never_returns
    (depth : nat) (self : event_class.ServerSentEventABC) :
  (forall out, event_class.ServerSentEventBytes_encode depth self [] <> Return out)
  /\ event_class.ServerSentEventBytes_encode (S depth) self []
     = Raise (TypeError BadArity)
  /\ event_class.ServerSentEventBytes_encode 0 self [] = Raise RecursionError
  /\ (forall data event id retry comment sep out,
        event_class.encode depth
          (event_class.ServerSentEventBytes__init__ data event id retry comment sep)
        <> Return out)
  /\ run (event_class._encode
            (event_class.ServerSentEventBytes__init__
               (PyBytes (raw "hello")) PyNone PyNone PyNone PyNone PyNone)
            BytesIO_write;; getvalue)
     = Return (raw "data: hello" ++ [bLF; bLF]).
Proof.
  split; [|split; [|split; [|split]]].
  - intros out. destruct depth as [|[|depth]]; discriminate.
  - apply class_bytes_encode_arity.
  - reflexivity.
  - intros data event id retry comment sep out. unfold event_class.encode.
    cbn [event_class.__class__ event_class.ServerSentEventBytes__init__].
    destruct depth as [|[|depth]]; discriminate.
  - reflexivity.
Qed.

(** C4.  In each encoder the retry field is checked before it is written.
    When it is present and is no integer, the encoder raises a [TypeError]
    and returns no buffer; when it is absent or an integer, the error of
    the check is not what the encoder raises.  This holds of the two
    encoders of event_function.py, of the text class of event_class.py and
    of the writer [_encode] on a byte buffer, for every event. *)
Theorem C4_retry_type_check :
  (forall e : event_function.ServerSentEvent,
     retry_checked (event_function.retry e) (event_function.encode e))
  /\ (forall self data event id retry comment sep : PyVal,
        retry_checked retry
          (event_function.event_from_bytes self data event id retry comment sep))
  /\ (forall e : event_class.ServerSentEventABC,
        retry_checked (event_class.retry e) (event_class.ServerSentEvent_encode e))
  /\ (forall e : event_class.ServerSentEventABC,
        retry_checked (event_class.retry e)
          (run (event_class._encode e BytesIO_write;; getvalue))).
Proof.
  split; [|split; [|split]].
  - apply event_function_encode_retry_checked.
  - apply event_from_bytes_retry_checked.
  - apply class_text_encode_retry_checked.
  - apply class_bytes_writer_retry_checked.
Qed.

(** The retry check at work: a string and a float are refused, an integer is
    written in decimal. *)
Example retry_string_is_refused :
  event_function.encode
    (event_function.__init__ PyNone PyNone PyNone (PyStr (txt "5000")) PyNone PyNone)
  = Raise (TypeError RetryNotInt).
Proof. reflexivity. Qed.

Example retry_float_is_refused :
  event_function.event_from_bytes
    PyNone PyNone PyNone PyNone (PyFloat "1.5") PyNone PyNone
  = Raise (TypeError RetryNotInt).
Proof. reflexivity. Qed.

Example retry_integer_is_written :
  event_function.encode
    (event_function.__init__ PyNone PyNone PyNone (PyInt 5000) PyNone PyNone)
  = Return (raw "retry: 5000" ++ [bCR; bLF; bCR; bLF]).
Proof. reflexivity. Qed.

(** C5.  The fields are written in the order comment, id, event, data,
    retry, each only when present, and the separator closes the frame: on
    events whose fields have the types an encoder is written for, the
    encoder returns the frame of [text_lines] (of [byte_lines] for the byte
    encoders), which lists the lines in that order.  This holds of the text
    encoder and the byte encoder of event_function.py, of the writer
    [_encode] on a byte buffer and of the text class of event_class.py.  In
    particular the event with data [line1], LF, [line2], event [update] and
    id [42] is encoded by both text encoders as the lines id, event, data,
    data and a blank line, each ended by CR LF. *)
Theorem C5_fields_in_fixed_order :
  (forall e : event_function.ServerSentEvent,
     text_typed (event_function.id e) (event_function.event e)
                (event_function.retry e) (event_function._sep e) = true ->
     event_function.encode e =
     str_encode (frame (str_of (event_function._sep e))
                   (text_lines (event_function.comment e) (event_function.id e)
                      (event_function.event e) (event_function.data e)
                      (event_function.retry e))))
  /\ (forall self data event id retry comment sep : PyVal,
        bytes_typed comment id event data retry
          (if is_not_None sep then sep else event_function.DEFAULT_SEPARATOR_BYTES)
        = true ->
        event_function.event_from_bytes self data event id retry comment sep =
        Return (frame
                  (bytes_of (if is_not_None sep then sep
                             else event_function.DEFAULT_SEPARATOR_BYTES))
                  (byte_lines comment id event data retry)))
  /\ (forall e : event_class.ServerSentEventABC,
        event_class.__class__ e = event_class.ServerSentEventBytes ->
        bytes_typed (event_class.comment e) (event_class.id e) (event_class.event e)
                    (event_class.data e) (event_class.retry e) (event_class._sep e)
        = true ->
        run (event_class._encode e BytesIO_write;; getvalue) =
        Return (frame (bytes_of (event_class._sep e))
                  (byte_lines (event_class.comment e) (event_class.id e)
                     (event_class.event e) (event_class.data e)
                     (event_class.retry e))))
  /\ (forall e : event_class.ServerSentEventABC,
        class_text_typed e = true ->
        event_class.ServerSentEvent_encode e =
        str_encode (frame (str_of (event_class._sep e))
                      (text_lines (event_class.comment e) (event_class.id e)
                         (event_class.event e) (event_class.data e)
                         (event_class.retry e))))
  /\ event_function.encode
       (event_function.__init__ scenario_data (PyStr (txt "update"))
          (PyStr (txt "42")) PyNone PyNone PyNone)
     = Return scenario_frame
  /\ event_class.ServerSentEvent_encode
       (event_class.ServerSentEvent__init__ scenario_data (PyStr (txt "update"))
          (PyStr (txt "42")) PyNone PyNone PyNone)
     = Return scenario_frame.
Proof.
  split; [|split; [|split; [|split; [|split]]]].
  - apply event_function_encode_frame.
  - intros self data event id retry comment sep. apply event_from_bytes_frame.
  - intros e Hc Ht. by apply run_getvalue, _encode_bytes_frame.
  - apply class_text_encode_frame.
  - reflexivity.
  - reflexivity.
Qed.

(** C5 at events with every field set: the typing conditions hold, and
    each encoder returns the lines in the order comment, comment, id, event,
    data, data, retry, then the blank line (the text class of event_class.py
    on the event without retry). *)
Lemma C5_fields_in_fixed_order_witness :
  (text_typed (event_function.id full_text_event) (event_function.event full_text_event)
              (event_function.retry full_text_event)
              (event_function._sep full_text_event) = true
   /\ event_function.encode full_text_event = Return full_text_frame)
  /\ (bytes_typed (event_class.comment full_bytes_event) (event_class.id full_bytes_event)
                  (event_class.event full_bytes_event) (event_class.data full_bytes_event)
                  (event_class.retry full_bytes_event)
                  event_function.DEFAULT_SEPARATOR_BYTES = true
      /\ event_function.event_from_bytes PyNone
           (event_class.data full_bytes_event) (event_class.event full_bytes_event)
           (event_class.id full_bytes_event) (event_class.retry full_bytes_event)
           (event_class.comment full_bytes_event) PyNone
         = Return full_text_frame)
  /\ (bytes_typed (event_class.comment full_bytes_event) (event_class.id full_bytes_event)
                  (event_class.event full_bytes_event) (event_class.data full_bytes_event)
                  (event_class.retry full_bytes_event)
                  (event_class._sep full_bytes_event) = true
      /\ run (event_class._encode full_bytes_event BytesIO_write;; getvalue)
         = Return full_bytes_frame)
  /\ (class_text_typed class_text_event = true
      /\ event_class.ServerSentEvent_encode class_text_event = Return class_text_frame).
Proof.
  destruct C5_fields_in_fixed_order as (Htext & Hbytes & Hwriter & Hclass & _).
  split; [|split; [|split]]; (split; [reflexivity|]).
  - rewrite (Htext full_text_event eq_refl). reflexivity.
  - rewrite (Hbytes PyNone (event_class.data full_bytes_event)
               (event_class.event full_bytes_event) (event_class.id full_bytes_event)
               (event_class.retry full_bytes_event)
               (event_class.comment full_bytes_event) PyNone eq_refl).
    reflexivity.
  - rewrite (Hwriter full_bytes_event eq_refl eq_refl). reflexivity.
  - rewrite (Hclass class_text_event eq_refl). reflexivity.
Defined.

(** C6.  The expression splits at CR LF, at a lone CR and at a lone LF
    alike: for [a] and [b] without newline, each of [a CR LF b], [a CR b]
    and [a LF b] is split into [a] and [b], in text and in bytes.  A value
    made of [k] lines without newline, each two joined by a newline of any
    of the three conventions, is split into these [k] lines in their order,
    and an event with that value as its data is encoded as [k] lines
    [data: ], one per line and in that order, then the blank line. *)
Theorem C6_newline_conventions_split_alike :
  (forall a b : str,
     str_plain a = true -> str_plain b = true ->
     str_split (a ++ [CR; LF] ++ b) = [a; b]
     /\ str_split (a ++ [CR] ++ b) = [a; b]
     /\ str_split (a ++ [LF] ++ b) = [a; b])
  /\ (forall a b : bytes,
        bytes_plain a = true -> bytes_plain b = true ->
        bytes_split (a ++ [bCR; bLF] ++ b) = [a; b]
        /\ bytes_split (a ++ [bCR] ++ b) = [a; b]
        /\ bytes_split (a ++ [bLF] ++ b) = [a; b])
  /\ (forall (first : str) (rest : list (newline * str)),
        str_plain first = true ->
        forallb (fun r => str_plain (snd r)) rest = true ->
        unambiguous rest = true ->
        let lines := first :: map snd rest in
        let out := flat_map (fun l => txt "data: " ++ l ++ [CR; LF]) lines ++ [CR; LF] in
        str_split (str_join first rest) = lines
        /\ length lines = S (length rest)
        /\ event_function.encode
             (event_function.__init__ (PyStr (str_join first rest))
                PyNone PyNone PyNone PyNone PyNone)
           = str_encode out
        /\ event_class.ServerSentEvent_encode
             (event_class.ServerSentEvent__init__ (PyStr (str_join first rest))
                PyNone PyNone PyNone PyNone PyNone)
           = str_encode out)
  /\ (forall (first : bytes) (rest : list (newline * bytes)),
        bytes_plain first = true ->
        forallb (fun r => bytes_plain (snd r)) rest = true ->
        unambiguous rest = true ->
        let lines := first :: map snd rest in
        bytes_split (bytes_join first rest) = lines
        /\ event_function.event_from_bytes PyNone (PyBytes (bytes_join first rest))
             PyNone PyNone PyNone PyNone PyNone
           = Return (flat_map (fun l => raw "data: " ++ l ++ [bCR; bLF]) lines
                     ++ [bCR; bLF])
        /\ run (event_class._encode
                  (event_class.ServerSentEventBytes__init__
                     (PyBytes (bytes_join first rest))
                     PyNone PyNone PyNone PyNone PyNone)
                  BytesIO_write;; getvalue)
           = Return (flat_map (fun l => raw "data: " ++ l ++ [bLF]) lines ++ [bLF])).
Proof.
  split; [|split; [|split]].
  - intros a b Ha Hb. repeat split.
    + by apply (str_split_two CRLF).
    + by apply (str_split_two CR_only).
    + by apply (str_split_two LF_only).
  - intros a b Ha Hb. repeat split.
    + by apply (bytes_split_two CRLF).
    + by apply (bytes_split_two CR_only).
    + by apply (bytes_split_two LF_only).
  - intros first rest Hf Hr Hu lines out.
    pose proof (str_split_join first rest Hf Hr Hu) as Hsplit.
    split; [done|]. split; [by simpl; rewrite length_map|]. split.
    + rewrite event_function_encode_frame by done.
      unfold text_lines. cbn [event_function.__init__ event_function.comment
        event_function.id event_function.event event_function.data
        event_function.retry event_function._sep is_not_None py_str str_of].
      rewrite Hsplit. f_equal. apply (frame_data_only [CR; LF] (txt "data: ")).
    + rewrite class_text_encode_frame by done.
      unfold text_lines. cbn [event_class.ServerSentEvent__init__
        event_class.comment event_class.id event_class.event event_class.data
        event_class.retry event_class._sep is_not_None py_str str_of
        event_class.DEFAULT_SEPARATOR].
      rewrite Hsplit. f_equal. apply (frame_data_only [CR; LF] (txt "data: ")).
  - intros first rest Hf Hr Hu lines.
    pose proof (bytes_split_join first rest Hf Hr Hu) as Hsplit.
    split; [done|]. split.
    + rewrite event_from_bytes_frame by done.
      unfold byte_lines. cbn [is_not_None bytes_of event_function.DEFAULT_SEPARATOR_BYTES].
      rewrite Hsplit. f_equal. apply (frame_data_only [bCR; bLF] (raw "data: ")).
    + erewrite run_getvalue; [|by apply _encode_bytes_frame].
      unfold byte_lines. cbn [event_class.ServerSentEventBytes__init__
        event_class.comment event_class.id event_class.event event_class.data
        event_class.retry event_class._sep is_not_None bytes_of
        event_class.DEFAULT_SEPARATOR].
      rewrite Hsplit. f_equal. apply (frame_data_only [bLF] (raw "data: ")).
Qed.

(** C6 at the value [a CR LF b LF LF c CR d] and at [a CR b]: the
    conditions hold, the first is split into its five lines and encoded as
    five data lines, the second is split into [a] and [b]. *)
Lemma C6_newline_conventions_split_alike_witness :
  (str_plain (txt "a") = true
   /\ forallb (fun r => str_plain (snd r)) five_lines = true
   /\ unambiguous five_lines = true)
  /\ str_split (str_join (txt "a") five_lines)
     = [txt "a"; txt "b"; []; txt "c"; txt "d"]
  /\ event_function.encode
       (event_function.__init__ (PyStr (str_join (txt "a") five_lines))
          PyNone PyNone PyNone PyNone PyNone)
     = Return (raw "data: a" ++ [bCR; bLF] ++ raw "data: b" ++ [bCR; bLF] ++
               raw "data: " ++ [bCR; bLF] ++ raw "data: c" ++ [bCR; bLF] ++
               raw "data: d" ++ [bCR; bLF] ++ [bCR; bLF])
  /\ str_split (txt "a" ++ [CR] ++ txt "b") = [txt "a"; txt "b"].
Proof.
  split; [repeat split|].
  pose proof (proj1 (proj2 (proj2 C6_newline_conventions_split_alike))
                (txt "a") five_lines eq_refl eq_refl eq_refl) as (H1 & _ & H2 & _).
  split; [exact H1|]. split; [rewrite H2; reflexivity|].
  apply (proj1 C6_newline_conventions_split_alike (txt "a") (txt "b") eq_refl eq_refl).
Defined.

(** Deleting the newlines of a value leaves none. *)
Lemma str_strip_plain_result (s : str) : str_has_sep (str_strip s) = false.
Proof.
  unfold str_has_sep, has_line_sep, str_strip.
  induction s as [|c s IH]; simpl; [done|].
  destruct (is_CR c || is_LF c) eqn:Hc; simpl; [done|]. by rewrite Hc.
Qed.

(** In event_function.py the id is written on one line, its newlines
    deleted. *)
Lemma event_function_id_on_one_line (s : str) :
  event_function.encode
    (event_function.__init__ PyNone PyNone (PyStr s) PyNone PyNone PyNone) =
  str_encode (txt "id: " ++ str_strip s ++ [CR; LF] ++ [CR; LF]).
Proof.
  rewrite event_function_encode_frame by done.
  unfold text_lines, frame. simpl. by rewrite <- !app_assoc.
Qed.

(** C7 (the code departs from the claim).  The claim: a newline inside the
    id or the event name is deleted and the field stays on one line, so the
    id [x], LF, [y] is written as [id: xy].  The encoders of
    event_function.py and the writer [_encode] on a byte event do so.  The
    text class of event_class.py raises a [TypeError] instead, for the id
    and for the event name: [_encode] hands the expression an empty bytes
    object as the replacement, which cannot be joined with the pieces of a
    string. *)
Theorem C7_class_text_newline_in_id_raises :
  event_class.ServerSentEvent_encode
    (event_class.ServerSentEvent__init__
       PyNone PyNone (PyStr x_newline_y) PyNone PyNone PyNone)
  = Raise (TypeError JoinMismatch)
  /\ event_class.ServerSentEvent_encode
       (event_class.ServerSentEvent__init__
          PyNone (PyStr x_newline_y) PyNone PyNone PyNone PyNone)
     = Raise (TypeError JoinMismatch)
  /\ event_function.encode
       (event_function.__init__
          PyNone PyNone (PyStr x_newline_y) PyNone PyNone PyNone)
     = Return (raw "id: xy" ++ [bCR; bLF; bCR; bLF])
  /\ event_function.event_from_bytes
       PyNone PyNone PyNone (PyBytes bx_newline_y) PyNone PyNone PyNone
     = Return (raw "id: xy" ++ [bCR; bLF; bCR; bLF])
  /\ run (event_class._encode
            (event_class.ServerSentEventBytes__init__
               PyNone PyNone (PyBytes bx_newline_y) PyNone PyNone PyNone)
            BytesIO_write;; getvalue)
     = Return (raw "id: xy" ++ [bLF; bLF]).
Proof. repeat split. Qed.

(** C8.  [ensure_bytes] returns a bytes object as it is, whatever the
    separator, and leaves the store alone; passing its result through
    [ensure_bytes] again, with any separator, returns the same bytes. *)
Theorem C8_ensure_bytes_passes_bytes_through
    (h : store) (b : bytes) (sep sep' : PyVal) (depth : nat) :
  event_function.ensure_bytes h (event_function.Val (PyBytes b)) sep = (Return b, h)
  /\ event_class.ensure_bytes depth h (event_class.Val (PyBytes b)) sep = (Return b, h)
  /\ match event_function.ensure_bytes h (event_function.Val (PyBytes b)) sep with
     | (Return out, h') =>
         event_function.ensure_bytes h' (event_function.Val (PyBytes out)) sep'
         = (Return b, h)
     | _ => False
     end
  /\ match event_class.ensure_bytes depth h (event_class.Val (PyBytes b)) sep with
     | (Return out, h') =>
         event_class.ensure_bytes depth h' (event_class.Val (PyBytes out)) sep'
         = (Return b, h)
     | _ => False
     end.
Proof. repeat split. Qed.

(** C9.  Given a reference to a dictionary, [ensure_bytes] assigns the
    separator to the key [sep] of that very dictionary before it builds the
    event: whatever the call returns or raises, the store then holds the
    dictionary with [sep] bound to the separator, its other keys and the
    other dictionaries as they were.  The dictionary is the same as before
    only if it already bound [sep] to that separator. *)
Theorem C9_ensure_bytes_assigns_sep_in_place
    (h : store) (l : positive) (sep : PyVal) (depth : nat) :
  let after := snd (event_function.ensure_bytes h (event_function.Dict l) sep) in
  after = <[l := <["sep" := sep]> (h !!! l)]> h
  /\ snd (event_class.ensure_bytes depth h (event_class.Dict l) sep) = after
  /\ (after !!! l : gmap string PyVal) !! "sep" = Some sep
  /\ (forall k, k <> "sep" ->
        (after !!! l : gmap string PyVal) !! k = (h !!! l : gmap string PyVal) !! k)
  /\ (forall l', l' <> l -> after !! l' = h !! l')
  /\ ((after !!! l : gmap string PyVal) = h !!! l <->
      (h !!! l : gmap string PyVal) !! "sep" = Some sep).
Proof.
  cbn [event_function.ensure_bytes event_class.ensure_bytes snd]. cbv zeta.
  rewrite lookup_total_insert_eq.
  split; [done|]. split; [done|]. split; [apply lookup_insert_eq|].
  split; [by intros k Hk; apply lookup_insert_ne|].
  split; [by intros l' Hl; apply lookup_insert_ne|].
  split.
  - intros <-. apply lookup_insert_eq.
  - apply insert_id.
Qed.

(** The caller's mapping, after the call.  The mapping with the single key
    [data] holds the key [sep] as well once [ensure_bytes] has returned. *)
Example caller_mapping_is_changed :
  let h : store := {[ 1%positive := {[ "data" := PyStr (txt "hello") ]} ]} in
  let r := event_function.ensure_bytes h (event_function.Dict 1%positive) (PyStr [LF]) in
  fst r = Return (raw "data: hello" ++ [bLF; bLF])
  /\ (h !!! 1%positive : gmap string PyVal) !! "sep" = None
  /\ (snd r !!! 1%positive : gmap string PyVal) !! "sep" = Some (PyStr [LF]).
Proof. cbv zeta. split; [|split]; vm_compute; reflexivity. Qed.

(** C10 (the code departs from the claim).  The claim: a boolean retry
    passes the integer check, [encode] succeeds, and the frame holds the
    line [retry: True] or [retry: False].  The encoders of event_function.py
    and the writer [_encode] on a byte buffer do so.  The text class of
    event_class.py passes the check and then raises a [TypeError]:
    [_encode] hands the retry value to the text buffer as bytes. *)
Theorem C10_class_text_boolean_retry_raises :
  event_class.ServerSentEvent_encode
    (event_class.ServerSentEvent__init__
       PyNone PyNone PyNone (PyBool true) PyNone PyNone)
  = Raise (TypeError WriteMismatch)
  /\ event_class.ServerSentEvent_encode
       (event_class.ServerSentEvent__init__
          PyNone PyNone PyNone (PyBool false) PyNone PyNone)
     = Raise (TypeError WriteMismatch)
  /\ isinstance_int (PyBool true) = true
  /\ isinstance_int (PyBool false) = true
  /\ event_function.encode
       (event_function.__init__ PyNone PyNone PyNone (PyBool true) PyNone PyNone)
     = Return (raw "retry: True" ++ [bCR; bLF; bCR; bLF])
  /\ event_function.encode
       (event_function.__init__ PyNone PyNone PyNone (PyBool false) PyNone PyNone)
     = Return (raw "retry: False" ++ [bCR; bLF; bCR; bLF])
  /\ event_function.event_from_bytes
       PyNone PyNone PyNone PyNone (PyBool true) PyNone PyNone
     = Return (raw "retry: True" ++ [bCR; bLF; bCR; bLF])
  /\ run (event_class._encode
            (event_class.ServerSentEventBytes__init__
               PyNone PyNone PyNone (PyBool false) PyNone PyNone)
            BytesIO_write;; getvalue)
     = Return (raw "retry: False" ++ [bLF; bLF]).
Proof. repeat split. Qed.

(** * Further properties *)

(** ** The pieces of a split *)

Section SplitFacts.
Context {A : Type} (is_cr is_lf : A -> bool).

(** Induction on the scan: the tail after one character, or after a CR LF
    pair. *)
Lemma scan_ind (P : list A -> Prop) :
  P [] ->
  (forall c s, P s -> (forall c' s', s = c' :: s' -> P s') -> P (c :: s)) ->
  forall s, P s.
Proof.
  intros Hnil Hcons s.
  assert (H : forall n s, (length s <= n)%nat -> P s).
  { clear s. induction n as [|n IH]; intros [|c s] Hn; simpl in Hn;
      try done; try lia.
    apply Hcons; [apply IH; lia|].
    intros c' s' ->. apply IH. simpl in Hn. lia. }
  by apply (H (length s)).
Qed.

(** No piece holds a carriage return or a line feed. *)
Lemma split_lines_pieces_plain (s : list A) :
  forallb (plain is_cr is_lf) (split_lines is_cr is_lf s) = true.
Proof.
  induction s as [|c s IH IH2] using scan_ind; [done|].
  cbn [split_lines]. destruct (is_cr c) eqn:Hc.
  - cbn [forallb]. destruct s as [|c' s']; [done|].
    destruct (is_lf c'); [by apply (IH2 c' s')|done].
  - destruct (is_lf c) eqn:Hl; [done|].
    destruct (split_lines is_cr is_lf s) as [|l ls]; cbn [forallb] in *.
    + unfold plain, has_line_sep. simpl. by rewrite Hc, Hl.
    + apply andb_prop in IH as [Hp Hls]. rewrite Hls, andb_true_r.
      unfold plain, has_line_sep in *. simpl. by rewrite Hc, Hl.
Qed.

(** A property of every character holds of every character of every
    piece. *)
Lemma split_lines_forallb (P : A -> bool) (s : list A) :
  forallb P s = true ->
  forallb (forallb P) (split_lines is_cr is_lf s) = true.
Proof.
  induction s as [|c s IH IH2] using scan_ind; [done|].
  cbn [forallb split_lines]. intros [Hc Hs]%andb_prop. specialize (IH Hs).
  destruct (is_cr c).
  - cbn [forallb]. destruct s as [|c' s']; [done|].
    destruct (is_lf c'); [|done].
    apply (IH2 c' s' eq_refl). cbn [forallb] in Hs. by apply andb_prop in Hs as [_ ?].
  - destruct (is_lf c); [done|].
    destruct (split_lines is_cr is_lf s) as [|l ls]; cbn [forallb] in *.
    + by rewrite Hc.
    + apply andb_prop in IH as [Hl Hls]. by rewrite Hc, Hl, Hls.
Qed.



End SplitFacts.

(** ** Which events an encoder refuses *)

Lemma raises_only_retry_check {B} (P : exn -> Prop) (v : PyVal) :
  P (TypeError RetryNotInt) ->
  raises_only (B := B) P
    (if negb (isinstance_int v) then raise (TypeError RetryNotInt) else mret tt).
Proof.
  intros HP. destruct (negb (isinstance_int v));
    [by apply raises_only_raise | apply raises_only_ret].
Qed.

(** The retry block of the encoders that write the digits as bytes. *)
Lemma raises_only_retry_digits {B} (P : exn -> Prop) (v : PyVal)
    (w : io B unit) (k : bytes -> io B unit) :
  P (TypeError RetryNotInt) ->
  raises_only P w -> (forall d, raises_only P (k d)) ->
  raises_only P
    (when (is_not_None v) (
       (if negb (isinstance_int v)
        then raise (TypeError RetryNotInt) else mret tt);;
       w;; digits ← lift (str_encode (py_str v)); k digits)).
Proof.
  intros HP Hw Hk. apply raises_only_when.
  destruct (isinstance_int v) eqn:Hi; simpl.
  - apply raises_only_bind; [apply raises_only_ret | intros _].
    apply raises_only_bind; [done | intros _].
    rewrite (str_encode_int v Hi).
    apply raises_only_bind; [|done]. by intros buf e.
  - intros buf e. rewrite io_bind_eq. simpl. by intros [= <-].
Qed.

Lemma fails_lift {B A} (P : exn -> Prop) (r : result A) (e : exn) :
  r = Raise e -> P e -> fails (B := B) P (lift r).
Proof. intros -> HP buf. by exists e. Qed.

Lemma fails_when {B} (P : exn -> Prop) (c : bool) (m : io B unit) :
  c = true -> fails P m -> fails P (when c m).
Proof. by intros ->. Qed.

Lemma fails_StringIO_write (P : exn -> Prop) (v : PyVal) :
  is_str v = false -> P (TypeError WriteMismatch) -> fails P (StringIO_write v).
Proof. intros Hv HP buf. destruct v; try done; by eexists. Qed.


Lemma is_type_error_intro (why : type_error) : is_type_error (TypeError why).
Proof. by exists why. Qed.

(** A field that must be a string of the pattern's kind, and is not. *)
Lemma re_sub_mistyped_str (repl v : PyVal) :
  is_opt_str v = false ->
  is_not_None v = true /\ re_sub StrPattern repl v = Raise (TypeError SubjectMismatch).
Proof. by destruct v. Qed.


Lemma re_split_mistyped_str (v : PyVal) :
  is_opt_str v = false ->
  is_not_None v = true /\ re_split StrPattern v = Raise (TypeError SubjectMismatch).
Proof. by destruct v. Qed.



Lemma is_TypeError_of_fails (r : result bytes) :
  (exists e, r = Raise e /\ is_type_error e) -> is_TypeError r.
Proof. intros (e & -> & why & ->). by exists why. Qed.

(** Blocks that raise type errors only. *)
Ltac type_errors_only :=
  let HP := fresh "HP" in
  pose proof library_error_is_type_error as HP;
  repeat (raises_only_tac HP;
          try (apply raises_only_retry_check; apply is_type_error_intro);
          try (apply raises_only_raise; apply is_type_error_intro));
  clear HP.


(** Blocks of the writers that raise type errors only, the retry block
    included. *)
Ltac writer_type_errors_only :=
  first
    [ apply raises_only_retry_digits;
      [ apply is_type_error_intro | by type_errors_only
      | intros ?; by type_errors_only ]
    | by type_errors_only ].


(** A string field with a newline, where the replacement is bytes. *)
Lemma re_sub_newline_str (v : PyVal) :
  is_opt_str v = true -> negb (str_has_sep (str_of v)) = false ->
  is_not_None v = true /\
  re_sub StrPattern (PyBytes []) v = Raise (TypeError JoinMismatch).
Proof.
  destruct v; try done. simpl. intros _ Hs%negb_false_iff. by rewrite Hs.
Qed.

Lemma class_text_encode_mistyped (data event id retry comment sep : PyVal) :
  let e := event_class.Build_ServerSentEventABC event_class.ServerSentEvent
             data event id retry comment sep in
  class_text_typed e = false ->
  is_TypeError (event_class.ServerSentEvent_encode e).
Proof.
  intros e. unfold class_text_typed, e.
  cbn [event_class.__class__ event_class.data event_class.event event_class.id
       event_class.retry event_class.comment event_class._sep andb].
  intros Hwf. apply is_TypeError_of_fails, run_fails. cbv zeta.
  apply fails_first. unfold event_class._encode.
  cbn [event_class.__class__ event_class.data event_class.event event_class.id
       event_class.retry event_class.comment event_class._sep
       event_class._LINE_SEP_EXPR event_class.TAG_COMMENT event_class.TAG_ID
       event_class.TAG_EVENT event_class.TAG_DATA event_class.TAG_RETRY
       event_class.tag].
  apply andb_false_iff in Hwf as [Hwf|Hsep];
    [apply andb_false_iff in Hwf as [Hwf|Hretry];
       [apply andb_false_iff in Hwf as [Hwf|Hdata];
          [apply andb_false_iff in Hwf as [Hwf|Hevent2];
             [apply andb_false_iff in Hwf as [Hwf|Hevent];
                [apply andb_false_iff in Hwf as [Hwf|Hid2];
                   [apply andb_false_iff in Hwf as [Hcomment|Hid]|]|]|]|]|]|].
  - apply re_split_mistyped_str in Hcomment as [Hn Hr].
    apply fails_first, fails_when; [done|].
    eapply fails_first, fails_lift; [exact Hr | apply is_type_error_intro].
  - apply fails_after; [by type_errors_only | intros _].
    apply re_sub_mistyped_str with (repl := PyBytes []) in Hid as [Hn Hr].
    apply fails_first, fails_when; [done|].
    apply fails_after; [by type_errors_only | intros _].
    eapply fails_first, fails_lift; [exact Hr | apply is_type_error_intro].
  - apply fails_after; [by type_errors_only | intros _].
    destruct (is_opt_str id) eqn:Hid.
    + apply re_sub_newline_str in Hid2 as [Hn Hr]; [|done].
      apply fails_first, fails_when; [done|].
      apply fails_after; [by type_errors_only | intros _].
      eapply fails_first, fails_lift; [exact Hr | apply is_type_error_intro].
    + apply re_sub_mistyped_str with (repl := PyBytes []) in Hid as [Hn Hr].
      apply fails_first, fails_when; [done|].
      apply fails_after; [by type_errors_only | intros _].
      eapply fails_first, fails_lift; [exact Hr | apply is_type_error_intro].
  - do 2 (apply fails_after; [by type_errors_only | intros _]).
    apply re_sub_mistyped_str with (repl := PyBytes []) in Hevent as [Hn Hr].
    apply fails_first, fails_when; [done|].
    apply fails_after; [by type_errors_only | intros _].
    eapply fails_first, fails_lift; [exact Hr | apply is_type_error_intro].
  - do 2 (apply fails_after; [by type_errors_only | intros _]).
    destruct (is_opt_str event) eqn:Hevent.
    + apply re_sub_newline_str in Hevent2 as [Hn Hr]; [|done].
      apply fails_first, fails_when; [done|].
      apply fails_after; [by type_errors_only | intros _].
      eapply fails_first, fails_lift; [exact Hr | apply is_type_error_intro].
    + apply re_sub_mistyped_str with (repl := PyBytes []) in Hevent as [Hn Hr].
      apply fails_first, fails_when; [done|].
      apply fails_after; [by type_errors_only | intros _].
      eapply fails_first, fails_lift; [exact Hr | apply is_type_error_intro].
  - do 3 (apply fails_after; [by type_errors_only | intros _]).
    apply re_split_mistyped_str in Hdata as [Hn Hr].
    apply fails_first, fails_when; [done|].
    eapply fails_first, fails_lift; [exact Hr | apply is_type_error_intro].
  - do 4 (apply fails_after; [by type_errors_only | intros _]).
    apply negb_false_iff in Hretry.
    apply fails_first, fails_when; [done|].
    destruct (isinstance_int retry) eqn:Hi; simpl.
    + apply fails_after; [by type_errors_only | intros _].
      apply fails_after; [by type_errors_only | intros _].
      rewrite (str_encode_int retry Hi).
      intros buf. rewrite !io_bind_eq. simpl. eexists. split; [done|].
      apply is_type_error_intro.
    + apply fails_first. intros buf. eexists. split; [done|].
      apply is_type_error_intro.
  - do 5 (apply fails_after; [writer_type_errors_only | intros _]).
    apply fails_StringIO_write; [done | apply is_type_error_intro].
Qed.

Lemma str_encode_not_TypeError (s : str) : ~ is_TypeError (str_encode s).
Proof.
  unfold str_encode. destruct (forallb encodable s); intros [why H]; discriminate.
Qed.



(** X3.  The text class of event_class.py raises a [TypeError] on every
    instance but those of [class_text_typed]: it refuses a comment, id,
    event name or payload that is no string, an id or event name with a
    newline in it, any retry at all, and a separator that is no string. *)
Theorem X3_class_text_encoder_refuses_most_events
    (data event id retry comment sep : PyVal) :
  is_TypeError
    (event_class.ServerSentEvent_encode
       (event_class.Build_ServerSentEventABC event_class.ServerSentEvent
          data event id retry comment sep)) <->
  class_text_typed
    (event_class.Build_ServerSentEventABC event_class.ServerSentEvent
       data event id retry comment sep) = false.
Proof.
  split; [|apply class_text_encode_mistyped].
  destruct (class_text_typed _) eqn:Ht; [|done].
  rewrite class_text_encode_frame by done.
  intros H. by apply str_encode_not_TypeError in H.
Qed.

Lemma class_text_agrees_with_function (e : event_class.ServerSentEventABC) :
  class_text_typed e = true ->
  event_class.ServerSentEvent_encode e =
  event_function.encode
    (event_function.Build_ServerSentEvent
       (event_class.data e) (event_class.event e) (event_class.id e)
       (event_class.retry e) (event_class.comment e) (event_class._sep e)).
Proof.
  intros Ht. rewrite class_text_encode_frame by done.
  rewrite event_function_encode_frame; [done|].
  unfold class_text_typed, text_typed in *. cbn.
  repeat (apply andb_prop in Ht as [Ht ?]).
  destruct (event_class.retry e); try done.
  repeat (apply andb_true_intro; split); done.
Qed.

(** X4.  Where the text class of event_class.py gets through, it returns
    what the text encoder of event_function.py returns on the same
    attributes. *)
Theorem X4_text_encoders_agree (e : event_class.ServerSentEventABC) :
  class_text_typed e = true ->
  event_class.ServerSentEvent_encode e =
  event_function.encode
    (event_function.Build_ServerSentEvent
       (event_class.data e) (event_class.event e) (event_class.id e)
       (event_class.retry e) (event_class.comment e) (event_class._sep e)).
Proof. apply class_text_agrees_with_function. Qed.

(** X4 at the event with a comment, an id, an event name and two lines of
    data. *)
Lemma X4_text_encoders_agree_witness :
  class_text_typed class_text_event = true
  /\ event_class.ServerSentEvent_encode class_text_event =
     event_function.encode
       (event_function.Build_ServerSentEvent
          (event_class.data class_text_event) (event_class.event class_text_event)
          (event_class.id class_text_event) (event_class.retry class_text_event)
          (event_class.comment class_text_event) (event_class._sep class_text_event))
  /\ event_class.ServerSentEvent_encode class_text_event = Return class_text_frame.
Proof.
  split; [reflexivity|]. split; [|reflexivity].
  apply (X4_text_encoders_agree class_text_event). reflexivity.
Defined.

Lemma io_bind_assoc {B A C D} (m : io B A) (f : A -> io B C) (g : C -> io B D) buf :
  ((m ≫= f) ≫= g) buf = (m ≫= (fun x => f x ≫= g)) buf.
Proof. rewrite !io_bind_eq. by destruct (m buf) as [[a b]|]. Qed.

Lemma io_bind_ext {B A C} (m : io B A) (f g : A -> io B C) :
  (forall a buf, f a buf = g a buf) -> forall buf, (m ≫= f) buf = (m ≫= g) buf.
Proof. intros H buf. rewrite !io_bind_eq. by destruct (m buf) as [[a b]|]. Qed.

Lemma run_ext {C A} (m m' : io (list C) A) :
  (forall buf, m buf = m' buf) -> run m = run m'.
Proof. intros H. unfold run. by rewrite H. Qed.

(** X5.  The two byte encoders are the same function of the fields and the
    separator: for all values, typed or not, [event_from_bytes] gives what
    the writer [_encode] leaves in a byte buffer for the instance with these
    attributes.  They differ in the default only: with no separator given,
    [event_from_bytes] is the writer on the instance with separator
    CR LF. *)
Theorem X5_byte_encoders_agree (self data event id retry comment sep : PyVal) :
  event_function.event_from_bytes self data event id retry comment sep =
  run (event_class._encode
         (event_class.Build_ServerSentEventABC event_class.ServerSentEventBytes
            data event id retry comment
            (if is_not_None sep then sep else PyBytes [bCR; bLF]))
         BytesIO_write;; getvalue).
Proof.
  unfold event_function.event_from_bytes. apply run_ext. intros buf. symmetry.
  unfold event_class._encode. cbv zeta.
  do 5 (rewrite io_bind_assoc; apply io_bind_ext; clear buf; intros _ buf).
  reflexivity.
Qed.

(** ** The dispatch *)

Lemma keys_check_valid (d : gmap string PyVal) :
  forallb (fun k => bool_decide (k ∈ init_params)) (map fst (map_to_list d)) = true
  <-> valid_keys d.
Proof.
  rewrite List.forallb_forall. unfold valid_keys. split.
  - intros H k [v Hv]. eapply bool_decide_eq_true_1, H.
    apply in_map_iff. exists (k, v). split; [done|].
    by apply list_elem_of_In, elem_of_map_to_list.
  - intros H k [[k' v] [<- Hin]]%in_map_iff. apply bool_decide_eq_true_2, H.
    exists v. by apply elem_of_map_to_list, list_elem_of_In.
Qed.

Lemma valid_keys_insert_sep (d : gmap string PyVal) (sep : PyVal) :
  valid_keys d -> valid_keys (<["sep" := sep]> d).
Proof.
  intros Hd k [v Hv]. destruct (decide (k = "sep")) as [->|Hk].
  - unfold init_params. set_solver.
  - rewrite lookup_insert_ne in Hv by done. by apply Hd.
Qed.

Lemma field_insert_sep (d : gmap string PyVal) (sep : PyVal) (k : string) :
  field (<["sep" := sep]> d) k = if decide (k = "sep") then sep else field d k.
Proof.
  unfold field. destruct (decide (k = "sep")) as [->|Hk].
  - by rewrite lookup_insert_eq.
  - by rewrite lookup_insert_ne.
Qed.

(** X6.  Given a mapping whose keys are all parameters of the constructor,
    [ensure_bytes] returns the encoding of the event built from the
    mapping's [data], [event], [id], [retry] and [comment] (a missing key is
    [None]) with the separator of the call: whatever the mapping held under
    [sep] is overridden. *)
Theorem X6_ensure_bytes_on_a_mapping
    (h : store) (l : positive) (sep : PyVal) (depth : nat) :
  let d : gmap string PyVal := h !!! l in
  valid_keys d ->
  fst (event_function.ensure_bytes h (event_function.Dict l) sep) =
    event_function.encode
      (event_function.__init__ (field d "data") (field d "event") (field d "id")
         (field d "retry") (field d "comment") sep)
  /\ fst (event_class.ensure_bytes depth h (event_class.Dict l) sep) =
     event_class.ServerSentEvent_encode
       (event_class.ServerSentEvent__init__ (field d "data") (field d "event")
          (field d "id") (field d "retry") (field d "comment") sep).
Proof.
  intros d Hd.
  pose proof (proj2 (keys_check_valid _) (valid_keys_insert_sep d sep Hd)) as Hk.
  cbn [event_function.ensure_bytes event_class.ensure_bytes fst]. cbv zeta.
  fold d. unfold event_function.from_kwargs, event_class.from_kwargs.
  rewrite Hk, !field_insert_sep. done.
Qed.

(** X7.  Given a mapping with a key that is no parameter of the
    constructor, [ensure_bytes] raises a [TypeError], in both modules and
    whatever the other keys hold. *)
Theorem X7_ensure_bytes_refuses_unknown_keys
    (h : store) (l : positive) (sep : PyVal) (depth : nat) (k : string) :
  let d : gmap string PyVal := h !!! l in
  is_Some (d !! k) -> k ∉ init_params ->
  fst (event_function.ensure_bytes h (event_function.Dict l) sep)
  = Raise (TypeError UnexpectedKeyword)
  /\ fst (event_class.ensure_bytes depth h (event_class.Dict l) sep)
     = Raise (TypeError UnexpectedKeyword).
Proof.
  intros d Hk Hnot.
  assert (Hbad : forallb (fun k => bool_decide (k ∈ init_params))
                   (map fst (map_to_list (<["sep" := sep]> d))) = false).
  { apply not_true_is_false. intros Hv%keys_check_valid.
    apply Hnot, Hv. rewrite lookup_insert_ne; [done|].
    intros <-. apply Hnot. unfold init_params. set_solver. }
  cbn [event_function.ensure_bytes event_class.ensure_bytes fst]. cbv zeta.
  fold d. unfold event_function.from_kwargs, event_class.from_kwargs.
  by rewrite Hbad.
Qed.

(** X8.  Dispatching the same mapping again: the separator of the last call
    is the one that counts, and an earlier call leaves no other trace.  The
    second of two calls returns what a single call with its separator
    returns and leaves the store that call leaves; with the same separator
    twice, the second call changes nothing. *)
Theorem X8_ensure_bytes_twice_on_a_mapping
    (h : store) (l : positive) (sep1 sep2 : PyVal) (depth : nat) :
  event_function.ensure_bytes
    (snd (event_function.ensure_bytes h (event_function.Dict l) sep1))
    (event_function.Dict l) sep2
  = event_function.ensure_bytes h (event_function.Dict l) sep2
  /\ event_class.ensure_bytes depth
       (snd (event_class.ensure_bytes depth h (event_class.Dict l) sep1))
       (event_class.Dict l) sep2
     = event_class.ensure_bytes depth h (event_class.Dict l) sep2
  /\ snd (event_function.ensure_bytes
            (snd (event_function.ensure_bytes h (event_function.Dict l) sep1))
            (event_function.Dict l) sep1)
     = snd (event_function.ensure_bytes h (event_function.Dict l) sep1).
Proof.
  cbn [event_function.ensure_bytes event_class.ensure_bytes snd]. cbv zeta.
  rewrite !lookup_total_insert_eq, !insert_insert_eq. done.
Qed.

(** A payload alone, with a separator that is no string: both text encoders
    stop at the first write of the separator. *)
Lemma emits_when_false {C} (m : io (list C) unit) : emits (when false m) [].
Proof. apply emits_ret. Qed.

Lemma function_text_bad_separator (t : str) (sep : PyVal) :
  is_str sep = false ->
  event_function.encode
    (event_function.Build_ServerSentEvent (PyStr t) PyNone PyNone PyNone PyNone sep)
  = Raise (TypeError WriteMismatch).
Proof.
  intros Hsep. unfold event_function.encode, run.
  cbn [event_function.data event_function.event event_function.id
       event_function.retry event_function.comment event_function._sep].
  erewrite emits_then by apply (emits_fstring_pieces (py_str sep)).
  erewrite emits_then by apply emits_when_false.
  erewrite emits_then by apply emits_when_false.
  erewrite emits_then by apply (emits_fstring_pieces (py_str sep)).
  erewrite emits_then by apply emits_when_false.
  rewrite io_bind_eq. by destruct sep.
Qed.

Lemma class_text_bad_separator (t : str) (sep : PyVal) :
  is_str sep = false ->
  event_class.ServerSentEvent_encode
    (event_class.Build_ServerSentEventABC event_class.ServerSentEvent
       (PyStr t) PyNone PyNone PyNone PyNone sep)
  = Raise (TypeError WriteMismatch).
Proof.
  intros Hsep. unfold event_class.ServerSentEvent_encode, event_class._encode, run.
  cbn [event_class.__class__ event_class.data event_class.event event_class.id
       event_class.retry event_class.comment event_class._sep
       event_class._LINE_SEP_EXPR re_split].
  destruct (str_split t) as [|p ps] eqn:E;
    [by apply (split_lines_nonempty is_CR is_LF) in E|].
  by destruct sep.
Qed.

(** X9.  On a plain value the two modules dispatch alike: for every value
    and every separator, [ensure_bytes] of event_class.py returns what
    [ensure_bytes] of event_function.py returns and leaves the store as it
    is, although one stringifies the value before it builds the event and
    the other lets the constructor do so. *)
Theorem X9_ensure_bytes_on_a_value_agrees
    (depth : nat) (h : store) (v sep : PyVal) :
  event_class.ensure_bytes depth h (event_class.Val v) sep =
  event_function.ensure_bytes h (event_function.Val v) sep
  /\ snd (event_function.ensure_bytes h (event_function.Val v) sep) = h.
Proof.
  assert (Hagree : forall t s,
    event_class.ServerSentEvent_encode
      (event_class.Build_ServerSentEventABC event_class.ServerSentEvent
         (PyStr t) PyNone PyNone PyNone PyNone s) =
    event_function.encode
      (event_function.Build_ServerSentEvent (PyStr t) PyNone PyNone PyNone PyNone s)).
  { intros t s. destruct (is_str s) eqn:Hs.
    - by rewrite class_text_agrees_with_function by (by destruct s).
    - by rewrite function_text_bad_separator, class_text_bad_separator. }
  split; [|by destruct v].
  destruct v; cbn [event_class.ensure_bytes event_function.ensure_bytes];
    try done; f_equal; apply Hagree.
Qed.

(** X6 at a mapping that holds a payload and a separator of its own: the
    separator of the call is the one that ends the lines. *)
Lemma X6_ensure_bytes_on_a_mapping_witness :
  let h : store :=
    {[ 1%positive := {[ "data" := PyStr (txt "hello"); "sep" := PyStr [CR] ]} ]} in
  valid_keys (h !!! 1%positive)
  /\ fst (event_function.ensure_bytes h (event_function.Dict 1%positive) (PyStr [LF]))
     = Return (raw "data: hello" ++ [bLF; bLF])
  /\ fst (event_class.ensure_bytes 1 h (event_class.Dict 1%positive) (PyStr [LF]))
     = Return (raw "data: hello" ++ [bLF; bLF]).
Proof.
  intros h.
  assert (Hv : valid_keys (h !!! 1%positive)).
  { apply keys_check_valid. vm_compute. reflexivity. }
  split; [exact Hv|].
  destruct (X6_ensure_bytes_on_a_mapping h 1%positive (PyStr [LF]) 1%nat Hv)
    as [Hf Hc].
  split; [rewrite Hf | rewrite Hc]; vm_compute; reflexivity.
Defined.

(** X7 at a mapping with the key [x]. *)
Lemma X7_ensure_bytes_refuses_unknown_keys_witness :
  let h : store :=
    {[ 1%positive := {[ "data" := PyStr (txt "hello"); "x" := PyNone ]} ]} in
  (is_Some ((h !!! 1%positive : gmap string PyVal) !! "x") /\ "x" ∉ init_params)
  /\ fst (event_function.ensure_bytes h (event_function.Dict 1%positive) (PyStr [LF]))
     = Raise (TypeError UnexpectedKeyword)
  /\ fst (event_class.ensure_bytes 1 h (event_class.Dict 1%positive) (PyStr [LF]))
     = Raise (TypeError UnexpectedKeyword).
Proof.
  intros h.
  assert (Hk : is_Some ((h !!! 1%positive : gmap string PyVal) !! "x")).
  { exists PyNone. vm_compute. reflexivity. }
  assert (Hn : "x" ∉ init_params).
  { intros Hin. apply (bool_decide_eq_true_2 _) in Hin. vm_compute in Hin.
    discriminate Hin. }
  split; [by split|].
  exact (X7_ensure_bytes_refuses_unknown_keys h 1%positive (PyStr [LF]) 1%nat "x" Hk Hn).
Defined.

(** X10.  A plain value that is no bytes object is encoded as the lines of
    its [str()], each a [data: ] line, and the blank line: the frame always
    has a data line, the value [None] giving [data: None].  The separator is
    the one of the call, or CR LF when it is [None]. *)
Theorem X10_ensure_bytes_on_a_value
    (depth : nat) (h : store) (v sep : PyVal) :
  is_bytes v = false -> is_opt_str sep = true ->
  let s := str_of (if is_not_None sep then sep else PyStr [CR; LF]) in
  let out := flat_map (fun l => txt "data: " ++ l ++ s) (str_split (py_str v)) ++ s in
  fst (event_function.ensure_bytes h (event_function.Val v) sep) = str_encode out
  /\ fst (event_class.ensure_bytes depth h (event_class.Val v) sep) = str_encode out
  /\ str_split (py_str v) <> [].
Proof.
  intros Hv Hsep s out.
  assert (Hf : event_function.encode
                 (event_function.__init__ (PyStr (py_str v))
                    PyNone PyNone PyNone PyNone sep) = str_encode out).
  { rewrite event_function_encode_frame by (by destruct sep).
    unfold text_lines. cbn [event_function.__init__ event_function.comment
      event_function.id event_function.event event_function.data
      event_function.retry event_function._sep is_not_None py_str str_of
      event_function.DEFAULT_SEPARATOR].
    f_equal. apply (frame_data_only s (txt "data: ")). }
  assert (Hc : event_class.ServerSentEvent_encode
                 (event_class.ServerSentEvent__init__ v
                    PyNone PyNone PyNone PyNone sep) = str_encode out).
  { rewrite class_text_encode_frame by (by destruct sep).
    unfold text_lines. cbn [event_class.ServerSentEvent__init__
      event_class.comment event_class.id event_class.event event_class.data
      event_class.retry event_class._sep is_not_None py_str str_of
      event_class.DEFAULT_SEPARATOR].
    f_equal. apply (frame_data_only s (txt "data: ")). }
  split; [|split].
  - by destruct v.
  - by destruct v.
  - apply split_lines_nonempty.
Qed.

(** X10 at the value [None] and at the integer 42, with a line feed as the
    separator. *)
Lemma X10_ensure_bytes_on_a_value_witness :
  (is_bytes PyNone = false /\ is_opt_str (PyStr [LF]) = true)
  /\ fst (event_function.ensure_bytes ∅ (event_function.Val PyNone) (PyStr [LF]))
     = Return (raw "data: None" ++ [bLF; bLF])
  /\ fst (event_class.ensure_bytes 1 ∅ (event_class.Val (PyInt 42)) PyNone)
     = Return (raw "data: 42" ++ [bCR; bLF; bCR; bLF]).
Proof.
  split; [by split|]. split.
  - rewrite (proj1 (X10_ensure_bytes_on_a_value 1 ∅ PyNone (PyStr [LF])
                      eq_refl eq_refl)).
    reflexivity.
  - rewrite (proj1 (proj2 (X10_ensure_bytes_on_a_value 1 ∅ (PyInt 42) PyNone
                             eq_refl eq_refl))).
    reflexivity.
Defined.

(** ** Splitting, deleting and joining *)

Section Normalise.
Context {A : Type} (is_cr is_lf : A -> bool) (cr lf : A).
Hypothesis cr_is_cr : is_cr cr = true.
Hypothesis lf_is_lf : is_lf lf = true.
Hypothesis lf_not_cr : is_cr lf = false.
Hypothesis cr_not_lf : is_lf cr = false.

Lemma join_with_newline (n : newline) (p : list A) (ps : list (list A)) :
  join_with (newline_chars cr lf n) (p :: ps) =
  join_lines cr lf p (map (pair n) ps).
Proof.
  unfold join_lines, join_rest. simpl. f_equal.
  induction ps as [|q qs IH]; simpl; [done|]. by rewrite IH.
Qed.

Lemma uniform_unambiguous (n : newline) (ps : list (list A)) :
  unambiguous (map (pair n) ps) = true.
Proof.
  induction ps as [|q qs IH]; simpl; [done|]. rewrite IH, andb_true_r.
  destruct qs as [|q' qs]; simpl; [by rewrite andb_false_r|].
  destruct n; simpl; try done. by rewrite andb_false_r.
Qed.

Lemma snd_pair_map (n : newline) (ps : list (list A)) :
  map snd (map (pair n) ps) = ps.
Proof. induction ps as [|q qs IH]; simpl; [done|]. by rewrite IH. Qed.

Lemma forallb_pair_map (P : list A -> bool) (n : newline) (ps : list (list A)) :
  forallb (fun r => P (snd r)) (map (pair n) ps) = forallb P ps.
Proof. induction ps as [|q qs IH]; simpl; [done|]. by rewrite IH. Qed.

(** Joining the pieces with one newline convention and splitting again
    gives the same pieces. *)
Lemma split_join_with (n : newline) (s : list A) :
  split_lines is_cr is_lf
    (join_with (newline_chars cr lf n) (split_lines is_cr is_lf s))
  = split_lines is_cr is_lf s.
Proof.
  pose proof (split_lines_pieces_plain is_cr is_lf s) as Hplain.
  destruct (split_lines is_cr is_lf s) as [|p ps] eqn:E;
    [by apply split_lines_nonempty in E|].
  cbn [forallb] in Hplain. apply andb_prop in Hplain as [Hp Hps].
  rewrite join_with_newline, (split_join_lines is_cr is_lf cr lf); try done.
  - by rewrite snd_pair_map.
  - by rewrite forallb_pair_map.
  - apply uniform_unambiguous.
Qed.
End Normalise.

Lemma str_split_join_with (n : newline) (s : str) :
  str_split (join_with (newline_chars CR LF n) (str_split s)) = str_split s.
Proof. by apply split_join_with. Qed.

Lemma bytes_split_join_with (n : newline) (b : bytes) :
  bytes_split (join_with (newline_chars bCR bLF n) (bytes_split b)) = bytes_split b.
Proof. by apply split_join_with. Qed.

(** X11.  The expression never splits a value into nothing, and no piece
    holds a carriage return or a line feed: every comment line and every
    data line an encoder writes is free of newlines, whatever the value. *)
Theorem X11_split_pieces_have_no_newline (s : str) (b : bytes) :
  str_split s <> []
  /\ forallb str_plain (str_split s) = true
  /\ bytes_split b <> []
  /\ forallb bytes_plain (bytes_split b) = true.
Proof.
  split; [apply split_lines_nonempty|].
  split; [apply split_lines_pieces_plain|].
  split; [apply split_lines_nonempty | apply split_lines_pieces_plain].
Qed.


(** X13.  The newline conventions of a payload or a comment do not show in
    the frame: rewriting the value with one convention throughout (its
    pieces joined by CR LF, by CR or by LF) gives the same result, for every
    event and in every encoder. *)
Theorem X13_newline_convention_does_not_show
    (n : newline) (s c : str) (bs bc : bytes)
    (self event id retry sep : PyVal) :
  let norm t := join_with (newline_chars CR LF n) (str_split t) in
  let bnorm t := join_with (newline_chars bCR bLF n) (bytes_split t) in
  event_function.encode
    (event_function.Build_ServerSentEvent
       (PyStr (norm s)) event id retry (PyStr (norm c)) sep)
  = event_function.encode
      (event_function.Build_ServerSentEvent (PyStr s) event id retry (PyStr c) sep)
  /\ event_function.event_from_bytes self
       (PyBytes (bnorm bs)) event id retry (PyBytes (bnorm bc)) sep
     = event_function.event_from_bytes self
         (PyBytes bs) event id retry (PyBytes bc) sep
  /\ event_class.ServerSentEvent_encode
       (event_class.Build_ServerSentEventABC event_class.ServerSentEvent
          (PyStr (norm s)) event id retry (PyStr (norm c)) sep)
     = event_class.ServerSentEvent_encode
         (event_class.Build_ServerSentEventABC event_class.ServerSentEvent
            (PyStr s) event id retry (PyStr c) sep).
Proof.
  intros norm bnorm. unfold norm, bnorm.
  unfold event_function.encode, event_function.event_from_bytes,
    event_class.ServerSentEvent_encode, event_class._encode.
  cbn [event_function.data event_function.event event_function.id
       event_function.retry event_function.comment event_function._sep
       event_class.__class__ event_class.data event_class.event event_class.id
       event_class.retry event_class.comment event_class._sep
       event_function._LINE_SEP_EXPR event_function._LINE_SEP_EXPR_BYTES
       event_class._LINE_SEP_EXPR re_split py_str].
  by rewrite !str_split_join_with, !bytes_split_join_with.
Qed.

(** ** UTF-8 and the line-separator expression *)

Lemma to_N_byte_of_N (n : N) : Byte.to_N (byte_of_N n) = n mod 256.
Proof.
  unfold byte_of_N. destruct (Byte.of_N (n mod 256)) as [b|] eqn:E.
  - by apply Byte.to_of_N.
  - apply Byte.of_N_None_iff in E. pose proof (N.mod_lt n 256 ltac:(done)). lia.
Qed.

Lemma byte_sep_to_N (b : byte) :
  is_bCR b = (Byte.to_N b =? 13) /\ is_bLF b = (Byte.to_N b =? 10).
Proof. destruct b; split; reflexivity. Qed.

Lemma byte_of_N_sep (n : N) :
  n < 256 ->
  is_bCR (byte_of_N n) = (n =? 13) /\ is_bLF (byte_of_N n) = (n =? 10).
Proof.
  intros Hn. destruct (byte_sep_to_N (byte_of_N n)) as [-> ->].
  by rewrite to_N_byte_of_N, N.mod_small.
Qed.

(** An octet of 128 or more is no newline. *)
Lemma byte_of_N_high (n : N) :
  128 <= n < 256 -> negb (is_bCR (byte_of_N n) || is_bLF (byte_of_N n)) = true.
Proof.
  intros Hn. destruct (byte_of_N_sep n) as [-> ->]; [lia|].
  destruct (N.eqb_spec n 13), (N.eqb_spec n 10); simpl; try done; lia.
Qed.

(** Linear arithmetic with the quotients and remainders taken as unknowns. *)
Ltac lia_quotients :=
  repeat match goal with
         | |- context [?a mod ?b] => generalize dependent (a mod b); intros
         | |- context [?a / ?b] => generalize dependent (a / b); intros
         end;
  lia.

(** The octets of a code point: the carriage return and the line feed are
    their own octet, and no octet of another code point is a newline. *)
Lemma utf8_cp_CR (c : N) : is_CR c = true -> utf8_cp c = [bCR].
Proof. unfold is_CR. by intros ->%N.eqb_eq. Qed.

Lemma utf8_cp_LF (c : N) : is_LF c = true -> utf8_cp c = [bLF].
Proof. unfold is_LF. by intros ->%N.eqb_eq. Qed.

Lemma utf8_cp_plain (c : N) :
  encodable c = true -> is_CR c = false -> is_LF c = false ->
  exists b bs, utf8_cp c = b :: bs /\
    forallb (fun x => negb (is_bCR x || is_bLF x)) (b :: bs) = true.
Proof.
  unfold encodable, is_CR, is_LF, CR, LF.
  intros [_ Hc%N.ltb_lt]%andb_prop Hcr%N.eqb_neq Hlf%N.eqb_neq.
  unfold utf8_cp.
  destruct (N.ltb_spec c 0x80); [|destruct (N.ltb_spec c 0x800);
    [|destruct (N.ltb_spec c 0x10000)]]; do 2 eexists; (split; [done|]);
    cbn [forallb]; rewrite ?andb_true_r.
  - destruct (byte_of_N_sep c) as [-> ->]; [lia|].
    by destruct (N.eqb_spec c 13), (N.eqb_spec c 10).
  - pose proof (N.Div0.div_lt_upper_bound c 64 32 ltac:(lia)).
    pose proof (N.mod_lt c 64 ltac:(lia)).
    rewrite !byte_of_N_high; [done|lia_quotients..].
  - pose proof (N.Div0.div_lt_upper_bound c 4096 16 ltac:(lia)).
    pose proof (N.mod_lt (c / 64) 64 ltac:(lia)).
    pose proof (N.mod_lt c 64 ltac:(lia)).
    rewrite !byte_of_N_high; [done|lia_quotients..].
  - pose proof (N.Div0.div_lt_upper_bound c 262144 5 ltac:(lia)).
    pose proof (N.mod_lt (c / 4096) 64 ltac:(lia)).
    pose proof (N.mod_lt (c / 64) 64 ltac:(lia)).
    pose proof (N.mod_lt c 64 ltac:(lia)).
    rewrite !byte_of_N_high; [done|lia_quotients..].
Qed.

Lemma utf8_cons (c : N) (s : str) : utf8 (c :: s) = utf8_cp c ++ utf8 s.
Proof. reflexivity. Qed.

Lemma utf8_app (s t : str) : utf8 (s ++ t) = utf8 s ++ utf8 t.
Proof. apply flat_map_app. Qed.

Lemma is_LF_not_CR (c : N) : is_LF c = true -> is_CR c = false.
Proof. unfold is_LF, is_CR. by intros ->%N.eqb_eq. Qed.

(** The first octet of an encodable code point is a line feed only for the
    line feed. *)
Lemma utf8_head_LF (c : N) (s : str) :
  encodable c = true -> is_LF c = false ->
  exists b bs, utf8 (c :: s) = b :: bs /\ is_bLF b = false.
Proof.
  intros Hc Hlf. rewrite utf8_cons. destruct (is_CR c) eqn:Hcr.
  - rewrite (utf8_cp_CR c Hcr). by do 2 eexists.
  - destruct (utf8_cp_plain c Hc Hcr Hlf) as (b & bs & -> & Hb).
    cbn [forallb] in Hb. apply andb_prop in Hb as [Hb _].
    apply negb_true_iff, orb_false_elim in Hb as [_ Hb]. by do 2 eexists.
Qed.

(** Splitting the UTF-8 octets of a string gives the UTF-8 octets of its
    pieces. *)
Lemma bytes_split_utf8 (s : str) :
  forallb encodable s = true ->
  bytes_split (utf8 s) = map utf8 (str_split s).
Proof.
  induction s as [|c s IH IH2] using scan_ind; [done|].
  cbn [forallb]. intros [Hc Hs]%andb_prop. specialize (IH Hs).
  unfold bytes_split, str_split in *. rewrite utf8_cons.
  cbn [split_lines]. destruct (is_CR c) eqn:Hcr.
  - rewrite (utf8_cp_CR c Hcr). cbn [app split_lines map]. f_equal.
    destruct s as [|c' s']; [done|].
    cbn [forallb] in Hs. apply andb_prop in Hs as [Hc' Hs'].
    destruct (is_LF c') eqn:Hlf'.
    + rewrite utf8_cons, (utf8_cp_LF c' Hlf'). cbn [app].
      by apply (IH2 c' s').
    + destruct (utf8_head_LF c' s' Hc' Hlf') as (b & bs & E & Hb).
      rewrite E in *. by rewrite Hb.
  - destruct (is_LF c) eqn:Hlf.
    + rewrite (utf8_cp_LF c Hlf). cbn [app split_lines map]. by rewrite IH.
    + destruct (utf8_cp_plain c Hc Hcr Hlf) as (b & bs & E & Hb).
      rewrite split_lines_app_plain.
      * rewrite IH. destruct (split_lines is_CR is_LF s) as [|l ls] eqn:El;
          [by apply split_lines_nonempty in El|].
        cbn [map]. by rewrite utf8_cons.
      * rewrite E. unfold has_line_sep. clear E.
        induction (b :: bs) as [|x xs IHx]; [done|]. cbn [forallb existsb] in *.
        apply andb_prop in Hb as [Hx Hxs]. apply negb_true_iff in Hx.
        by rewrite Hx, IHx.
Qed.

Lemma filter_keep_all {A} (P : A -> bool) (l : list A) :
  forallb P l = true -> List.filter P l = l.
Proof.
  induction l as [|x xs IH]; [done|]. cbn [forallb List.filter].
  intros [-> Hxs]%andb_prop. by rewrite IH.
Qed.

(** Deleting the newlines of the UTF-8 octets of a string gives the UTF-8
    octets of the string without its newlines. *)
Lemma bytes_strip_utf8 (s : str) :
  forallb encodable s = true ->
  bytes_strip (utf8 s) = utf8 (str_strip s).
Proof.
  unfold bytes_strip, str_strip.
  induction s as [|c s IH]; [done|].
  cbn [forallb]. intros [Hc Hs]%andb_prop. specialize (IH Hs).
  rewrite utf8_cons, List.filter_app, IH. cbn [List.filter].
  destruct (is_CR c) eqn:Hcr; [by rewrite (utf8_cp_CR c Hcr)|].
  destruct (is_LF c) eqn:Hlf; [by rewrite (utf8_cp_LF c Hlf)|].
  destruct (utf8_cp_plain c Hc Hcr Hlf) as (b & bs & E & Hb).
  cbn [orb negb]. by rewrite utf8_cons, E, filter_keep_all.
Qed.

(** ** The text encoder and the byte encoder on the same event *)

Lemma utf8_frame (s : str) (lines : list (str * str)) :
  utf8 (frame s lines) = frame (utf8 s) (map utf8_line lines).
Proof.
  rewrite !frame_unfold, utf8_app. f_equal.
  induction lines as [|[t v] lines IH]; [done|].
  cbn [flat_map map]. rewrite utf8_app, IH. f_equal.
  unfold line_out, utf8_line. cbn [fst snd]. by rewrite !utf8_app.
Qed.

Lemma utf8_split_field (present : bool) (tag : str) (pieces : list str) :
  map utf8_line (split_field present tag pieces) =
  split_field present (utf8 tag) (map utf8 pieces).
Proof.
  destruct present; [|done]. cbn [split_field].
  induction pieces as [|p ps IH]; [done|]. cbn [map]. by rewrite IH.
Qed.

Lemma utf8_single_field (present : bool) (tag value : str) :
  map utf8_line (single_field present tag value) =
  single_field present (utf8 tag) (utf8 value).
Proof. by destruct present. Qed.

Lemma forallb_frame {C} (P : C -> bool) (s : list C) (lines : list (list C * list C)) :
  forallb P s = true -> forallb (line_forallb P) lines = true ->
  forallb P (frame s lines) = true.
Proof.
  intros Hs Hl. rewrite frame_unfold, forallb_app, Hs, andb_true_r.
  induction lines as [|[t v] lines IH]; [done|].
  cbn [forallb flat_map] in *. apply andb_prop in Hl as [Htv Hl].
  apply andb_prop in Htv as [Ht Hv]. cbn [fst snd] in *.
  unfold line_out at 1. cbn [fst snd].
  by rewrite !forallb_app, Ht, Hv, Hs, IH.
Qed.

Lemma forallb_split_field {C} (P : C -> bool) present (tag : list C) pieces :
  forallb P tag = true -> forallb (forallb P) pieces = true ->
  forallb (line_forallb P) (split_field present tag pieces) = true.
Proof.
  intros Ht Hp. destruct present; [|done]. cbn [split_field].
  induction pieces as [|p ps IH]; [done|]. cbn [map forallb] in *.
  apply andb_prop in Hp as [Hp Hps]. unfold line_forallb at 1. cbn [fst snd].
  by rewrite Ht, Hp, IH.
Qed.

Lemma forallb_single_field {C} (P : C -> bool) present (tag value : list C) :
  forallb P tag = true -> forallb P value = true ->
  forallb (line_forallb P) (single_field present tag value) = true.
Proof.
  intros Ht Hv. destruct present; [|done]. cbn. unfold line_forallb. cbn.
  by rewrite Ht, Hv.
Qed.

Lemma forallb_filter {C} (P Q : C -> bool) (l : list C) :
  forallb P l = true -> forallb P (List.filter Q l) = true.
Proof.
  induction l as [|x xs IH]; [done|]. cbn [forallb List.filter].
  intros [Hx Hxs]%andb_prop. destruct (Q x); cbn [forallb]; rewrite ?Hx; auto.
Qed.

Lemma py_str_int_encodable (v : PyVal) :
  is_opt_int v = true -> forallb encodable (py_str v) = true.
Proof. destruct v as [|[]| | | |]; try done; intros _; apply encodable_txt. Qed.

Lemma val_encodable_py_str (v : PyVal) :
  is_opt_str v = true -> val_encodable v = true ->
  forallb encodable (py_str v) = true /\ forallb encodable (str_of v) = true.
Proof. by destruct v. Qed.

Lemma text_lines_encodable (comment id event data retry : PyVal) :
  is_opt_str comment = true -> is_opt_str id = true -> is_opt_str event = true ->
  is_opt_str data = true -> is_opt_int retry = true ->
  val_encodable comment = true -> val_encodable id = true ->
  val_encodable event = true -> val_encodable data = true ->
  forallb (line_forallb encodable) (text_lines comment id event data retry) = true.
Proof.
  intros Hc Hi He Hd Hr Vc Vi Ve Vd. unfold text_lines.
  destruct (val_encodable_py_str comment Hc Vc) as [Ec _].
  destruct (val_encodable_py_str id Hi Vi) as [_ Ei].
  destruct (val_encodable_py_str event He Ve) as [_ Ee].
  destruct (val_encodable_py_str data Hd Vd) as [Ed _].
  rewrite !forallb_app.
  rewrite !forallb_split_field, !forallb_single_field;
    try done; try apply encodable_txt;
    try (by apply forallb_filter);
    try (by apply split_lines_forallb).
  by apply py_str_int_encodable.
Qed.

Lemma byte_lines_encoded (comment id event data retry : PyVal) :
  is_opt_str comment = true -> is_opt_str id = true -> is_opt_str event = true ->
  is_opt_str data = true ->
  val_encodable comment = true -> val_encodable id = true ->
  val_encodable event = true -> val_encodable data = true ->
  byte_lines (encoded comment) (encoded id) (encoded event) (encoded data) retry =
  map utf8_line (text_lines comment id event data retry).
Proof.
  intros Hc Hi He Hd Vc Vi Ve Vd. unfold text_lines, byte_lines.
  rewrite !map_app, !utf8_split_field, !utf8_single_field.
  assert (Hsplit : forall v tag, is_opt_str v = true -> val_encodable v = true ->
    split_field (is_not_None (encoded v)) (utf8 (txt tag))
      (bytes_split (bytes_of (encoded v))) =
    split_field (is_not_None v) (utf8 (txt tag)) (map utf8 (str_split (py_str v)))).
  { intros [] tag ? ?; try done. cbn [encoded bytes_of py_str is_not_None].
    by rewrite bytes_split_utf8. }
  assert (Hstrip : forall v, is_opt_str v = true -> val_encodable v = true ->
    bytes_strip (bytes_of (encoded v)) = utf8 (str_strip (str_of v))).
  { intros [] ? ?; try done. by apply bytes_strip_utf8. }
  assert (Hnone : forall v, is_not_None (encoded v) = is_not_None v) by by intros [].
  rewrite <- !Hsplit, <- !Hstrip by done. by rewrite !Hnone.
Qed.

Lemma encoder_agreement (self data event id retry comment sep : PyVal) :
  encodable_event data event id retry comment sep = true ->
  event_function.encode
    (event_function.Build_ServerSentEvent data event id retry comment sep)
  = event_function.event_from_bytes self
      (encoded data) (encoded event) (encoded id) retry (encoded comment)
      (encoded sep).
Proof.
  unfold encodable_event. intros H. repeat (apply andb_prop in H as [H ?]).
  destruct sep as [| | | |s|]; try done. cbn [val_encodable] in *.
  rewrite event_function_encode_frame
    by (unfold text_typed; cbn; repeat (apply andb_true_intro; split); done).
  cbn [event_function.data event_function.event event_function.id
       event_function.retry event_function.comment event_function._sep str_of].
  unfold str_encode. rewrite forallb_frame; [|done|by apply text_lines_encodable].
  rewrite event_from_bytes_frame.
  - cbn [encoded is_not_None bytes_of]. f_equal.
    rewrite utf8_frame. f_equal. symmetry. by apply byte_lines_encoded.
  - cbn [encoded is_not_None]. unfold bytes_typed.
    assert (Hb : forall v, is_opt_str v = true -> is_opt_bytes (encoded v) = true)
      by by intros [].
    rewrite !Hb by done. cbn. by rewrite andb_true_r.
Qed.

(** X14.  The two representations agree: on an event whose fields are
    strings (and whose retry is an integer) without a code point that UTF-8
    cannot encode, the text encoder returns what the byte encoder returns
    on the UTF-8 encoded fields and separator.  Splitting and deleting
    newlines commute with the encoding. *)
Theorem X14_text_and_byte_encoders_agree
    (self data event id retry comment sep : PyVal) :
  encodable_event data event id retry comment sep = true ->
  event_function.encode
    (event_function.Build_ServerSentEvent data event id retry comment sep)
  = event_function.event_from_bytes self
      (encoded data) (encoded event) (encoded id) retry (encoded comment)
      (encoded sep).
Proof. apply encoder_agreement. Qed.

(** X14 at an event with code points of one, two and three octets: the
    payload [h], [e] with an acute accent, a line feed and the euro sign. *)
Lemma X14_text_and_byte_encoders_agree_witness :
  let data := PyStr [104; 233; LF; 8364] in
  encodable_event data PyNone (PyStr (txt "42")) (PyInt 5000) PyNone (PyStr [CR; LF])
  = true
  /\ event_function.encode
       (event_function.Build_ServerSentEvent
          data PyNone (PyStr (txt "42")) (PyInt 5000) PyNone (PyStr [CR; LF]))
     = event_function.event_from_bytes PyNone
         (encoded data) PyNone (PyBytes (raw "42")) (PyInt 5000) PyNone
         (PyBytes [bCR; bLF])
  /\ event_function.encode
       (event_function.Build_ServerSentEvent
          data PyNone (PyStr (txt "42")) (PyInt 5000) PyNone (PyStr [CR; LF]))
     = Return (raw "id: 42" ++ [bCR; bLF] ++
               raw "data: h" ++ [xc3; xa9] ++ [bCR; bLF] ++
               raw "data: " ++ [xe2; x82; xac] ++ [bCR; bLF] ++
               raw "retry: 5000" ++ [bCR; bLF] ++ [bCR; bLF]).
Proof.
  intros data. split; [reflexivity|]. split; [|reflexivity].
  apply (X14_text_and_byte_encoders_agree PyNone data PyNone (PyStr (txt "42"))
           (PyInt 5000) PyNone (PyStr [CR; LF])).
  reflexivity.
Defined.

(** ** No newline inside a line *)

Lemma uint_plain (d : Decimal.uint) :
  str_plain (txt (NilEmpty.string_of_uint d)) = true.
Proof.
  unfold str_plain, plain, has_line_sep, txt.
  induction d; [done|..]; apply negb_true_iff; apply negb_true_iff in IHd;
    cbn [NilEmpty.string_of_uint list_ascii_of_string map existsb];
    by rewrite IHd.
Qed.

Lemma py_str_int_plain (v : PyVal) :
  is_opt_int v = true -> str_plain (py_str v) = true.
Proof.
  destruct v as [|[]|n| | |]; try done. intros _. cbn [py_str].
  destruct (Z.to_int n) as [d|d]; cbn [NilZero.string_of_int].
  - unfold NilZero.string_of_uint. destruct d; try apply uint_plain. done.
  - pose proof (uint_plain d) as Hd.
    assert (Hz : str_plain (txt (NilZero.string_of_uint d)) = true).
    { unfold NilZero.string_of_uint. destruct d; try apply uint_plain. done. }
    unfold str_plain, plain, has_line_sep, txt in *.
    cbn [list_ascii_of_string map existsb]. apply negb_true_iff in Hz.
    apply negb_true_iff. by rewrite Hz.
Qed.

Lemma str_strip_is_plain (s : str) : str_plain (str_strip s) = true.
Proof.
  unfold str_plain, plain. fold (str_has_sep (str_strip s)).
  by rewrite str_strip_plain_result.
Qed.

Lemma bytes_strip_is_plain (b : bytes) : bytes_plain (bytes_strip b) = true.
Proof.
  unfold bytes_plain, plain, has_line_sep, bytes_strip. apply negb_true_iff.
  induction b as [|c b IH]; simpl; [done|].
  destruct (is_bCR c || is_bLF c) eqn:Hc; simpl; [done|]. by rewrite Hc.
Qed.

(** The octets of a string without newline hold no newline. *)
Lemma utf8_plain (s : str) :
  forallb encodable s = true -> str_plain s = true -> bytes_plain (utf8 s) = true.
Proof.
  unfold str_plain, bytes_plain, plain, has_line_sep.
  induction s as [|c s IH]; [done|]. cbn [forallb existsb].
  intros [Hc Hs]%andb_prop [Hsep Hrest]%negb_true_iff%orb_false_elim.
  apply orb_false_elim in Hsep as [Hcr Hlf].
  destruct (utf8_cp_plain c Hc Hcr Hlf) as (b & bs & E & Hb).
  rewrite utf8_cons, E, existsb_app. apply negb_true_iff, orb_false_intro.
  - clear E. induction (b :: bs) as [|x xs IHx]; [done|].
    cbn [forallb existsb] in *. apply andb_prop in Hb as [Hx Hxs].
    apply negb_true_iff in Hx. by rewrite Hx, IHx.
  - apply negb_true_iff, IH; [done|]. by apply negb_true_iff.
Qed.

Lemma values_plain_split_field {C} (P : list C -> bool) present tag pieces :
  forallb P pieces = true ->
  forallb (fun l => P (snd l)) (split_field (C := C) present tag pieces) = true.
Proof.
  intros Hp. destruct present; [|done]. cbn [split_field].
  induction pieces as [|p ps IH]; [done|]. cbn [map forallb snd] in *.
  apply andb_prop in Hp as [-> Hps]. by rewrite IH.
Qed.

Lemma values_plain_single_field {C} (P : list C -> bool) present tag value :
  P value = true ->
  forallb (fun l => P (snd l)) (single_field (C := C) present tag value) = true.
Proof. intros Hv. destruct present; [|done]. cbn. by rewrite Hv. Qed.

Lemma text_lines_plain (comment id event data retry : PyVal) :
  is_opt_int retry = true ->
  forallb (fun l => str_plain (snd l)) (text_lines comment id event data retry) = true.
Proof.
  intros Hr. unfold text_lines. rewrite !forallb_app.
  rewrite !values_plain_split_field, !values_plain_single_field; try done;
    first [ by apply py_str_int_plain
          | apply (split_lines_pieces_plain is_CR is_LF)
          | apply str_strip_is_plain ].
Qed.

Lemma byte_lines_plain (comment id event data retry : PyVal) :
  is_opt_int retry = true ->
  forallb (fun l => bytes_plain (snd l)) (byte_lines comment id event data retry) = true.
Proof.
  intros Hr. unfold byte_lines. rewrite !forallb_app.
  rewrite !values_plain_split_field, !values_plain_single_field; try done;
    first [ apply utf8_plain;
            [by apply py_str_int_encodable | by apply py_str_int_plain]
          | apply (split_lines_pieces_plain is_bCR is_bLF)
          | apply bytes_strip_is_plain ].
Qed.

(** X15.  No field can put a newline inside a line.  On a typed event the
    text encoder of event_function.py returns the frame of lines whose
    values hold no carriage return and no line feed, whatever the comment,
    the id, the event name and the payload contain; so does
    [event_from_bytes].  A newline is only ever written as part of the
    separator. *)
Theorem X15_no_newline_inside_a_line :
  (forall e : event_function.ServerSentEvent,
     text_typed (event_function.id e) (event_function.event e)
                (event_function.retry e) (event_function._sep e) = true ->
     let lines := text_lines (event_function.comment e) (event_function.id e)
                    (event_function.event e) (event_function.data e)
                    (event_function.retry e) in
     event_function.encode e = str_encode (frame (str_of (event_function._sep e)) lines)
     /\ forallb (fun l => str_plain (snd l)) lines = true)
  /\ (forall self data event id retry comment sep : PyVal,
        let _sep := if is_not_None sep then sep
                    else event_function.DEFAULT_SEPARATOR_BYTES in
        bytes_typed comment id event data retry _sep = true ->
        let lines := byte_lines comment id event data retry in
        event_function.event_from_bytes self data event id retry comment sep
        = Return (frame (bytes_of _sep) lines)
        /\ forallb (fun l => bytes_plain (snd l)) lines = true).
Proof.
  split.
  - intros e Ht lines. split; [by apply event_function_encode_frame|].
    apply text_lines_plain. unfold text_typed in Ht.
    by repeat (apply andb_prop in Ht as [Ht ?]).
  - intros self data event id retry comment sep _sep Ht lines.
    split; [by apply event_from_bytes_frame|].
    apply byte_lines_plain. unfold bytes_typed in Ht.
    by repeat (apply andb_prop in Ht as [Ht ?]).
Qed.

(** X15 at an event whose id and payload both hold a line feed: the id is
    written on one line, the payload on two. *)
Lemma X15_no_newline_inside_a_line_witness :
  let e := event_function.__init__ scenario_data PyNone (PyStr x_newline_y)
             PyNone PyNone PyNone in
  text_typed (event_function.id e) (event_function.event e)
             (event_function.retry e) (event_function._sep e) = true
  /\ forallb (fun l => str_plain (snd l))
       (text_lines (event_function.comment e) (event_function.id e)
          (event_function.event e) (event_function.data e)
          (event_function.retry e)) = true
  /\ event_function.encode e
     = Return (raw "id: xy" ++ [bCR; bLF] ++ raw "data: line1" ++ [bCR; bLF] ++
               raw "data: line2" ++ [bCR; bLF] ++ [bCR; bLF]).
Proof.
  intros e. split; [reflexivity|].
  destruct (proj1 X15_no_newline_inside_a_line e eq_refl) as [Henc Hplain].
  split; [exact Hplain|]. rewrite Henc. reflexivity.
Defined.
